(** * JJYWave project integrity validator (validate_project.py)

    A shallow embedding of [validate_project] and [main] and the properties
    of the validation run.

    Modelling conventions.
    - Text (a Python [str]) is a [string]: the sequence of its characters.
      Only the characters double quote, single quote, slash, star, newline
      and the two braces are ever inspected one by one.
    - A [pathlib.Path] is the string [str(path)]; [p // q] is Python's
      [p / q].  Paths are absolute and have no dot or dot-dot component
      ([Path.cwd()] is of that form, and so are the constants joined to it).
    - The filesystem is a tree of nodes.  [Path.exists], [open(...).read()]
      and [Path.glob("**/*.swift")] are functions of that tree.  Symbolic
      links and permissions on directories are not modelled; a file whose
      [open] or [read] raises is an [Unreadable] node that carries [str(e)].
    - Every message of the program is an f-string or a literal.  A message is
      represented by its template (a constructor, whose comment quotes the
      Python text) together with the interpolated values, so the text Python
      prints is a function of the value given here.
    - [print] is the only effect; a run yields the printed lines and the
      issue list. *)

From Stdlib Require Import List String Ascii Bool Arith Lia Sorted.
Import ListNotations.
Open Scope string_scope.

(** ** Text primitives *)

(** Python's [sub in s] on strings. *)
Fixpoint contains (sub s : string) : bool :=
  String.prefix sub s ||
  match s with
  | EmptyString => false
  | String _ r => contains sub r
  end.

(** [s.endswith(suffix)]; with suffix [.swift], the last component of the
    glob pattern on a file name. *)
Fixpoint ends_with (suffix s : string) : bool :=
  (s =? suffix) ||
  match s with
  | EmptyString => false
  | String _ r => ends_with suffix r
  end.

(** [s.count(c)] for a one-character [c]. *)
Fixpoint count (c : ascii) (s : string) : nat :=
  match s with
  | EmptyString => 0
  | String a r => (if (a =? c)%char then 1 else 0) + count c r
  end.

(** Does character [c] occur in [s]? *)
Fixpoint occurs (c : ascii) (s : string) : bool :=
  match s with
  | EmptyString => false
  | String a r => (a =? c)%char || occurs c r
  end.

(** ** Paths *)

(** [p / q] of pathlib, on the string forms: the root directory already
    ends with the separator. *)
Definition joinpath (p q : string) : string :=
  if ends_with "/" p then p ++ q else p ++ "/" ++ q.

Notation "p // q" := (joinpath p q) (at level 40, left associativity).

(** The components of a path: the pieces between separators. *)
Fixpoint split_on (sep : ascii) (s : string) : list string :=
  match s with
  | EmptyString => [EmptyString]
  | String c r =>
      if (c =? sep)%char then EmptyString :: split_on sep r
      else match split_on sep r with
           | h :: t => String c h :: t
           | [] => [String c EmptyString]
           end
  end.

Definition components (p : string) : list string :=
  filter (fun c => negb (c =? "")) (split_on "/" p).

(** ** The filesystem *)

#[local] Unset Elimination Schemes.
Inductive node : Type :=
| File (text : string)            (* a regular file that reads as [text] *)
| Unreadable (message : string)   (* a file on which open/read raises; [str(e)] *)
| Dir (entries : list (string * node)).
#[local] Set Elimination Schemes.

Fixpoint assoc (name : string) (entries : list (string * node)) : option node :=
  match entries with
  | [] => None
  | (n, x) :: rest => if n =? name then Some x else assoc name rest
  end.

Fixpoint walk (n : node) (p : list string) : option node :=
  match p with
  | [] => Some n
  | c :: p' =>
      match n with
      | Dir entries =>
          match assoc c entries with
          | Some child => walk child p'
          | None => None
          end
      | _ => None
      end
  end.

Definition resolve (fs : node) (path : string) : option node :=
  walk fs (components path).

(** [path.exists()] *)
Definition path_exists (fs : node) (path : string) : bool :=
  match resolve fs path with
  | Some _ => true
  | None => false
  end.

(** The exceptions [open(path, 'r')] and [f.read()] can raise. *)
Inductive exn : Type :=
| FileNotFoundError (filename : string)
| IsADirectoryError (filename : string)
| ReadFailure (message : string).

Inductive result (A : Type) : Type :=
| Ok (a : A)
| Raise (e : exn).
Arguments Ok {A} a.
Arguments Raise {A} e.

(** [with open(path, 'r') as f: f.read()] *)
Definition open_read (fs : node) (path : string) : result string :=
  match resolve fs path with
  | Some (File text) => Ok text
  | Some (Unreadable message) => Raise (ReadFailure message)
  | Some (Dir _) => Raise (IsADirectoryError path)
  | None => Raise (FileNotFoundError path)
  end.

(** [list(dir.glob(PATTERN))] for the recursive pattern of the source,
    any directory depth followed by a name with the suffix [.swift]: every
    such entry below [dir], as the string of its path.  An entry that
    is itself a directory is listed when its name matches, and searched. *)
Fixpoint glob_node (dir : string) (n : node) : list string :=
  match n with
  | Dir entries =>
      flat_map (fun e =>
                  ((if ends_with ".swift" (fst e) then [dir // fst e] else [])
                   ++ glob_node (dir // fst e) (snd e))%list)
               entries
  | _ => []
  end.

Definition glob_swift (fs : node) (dir : string) : list string :=
  match resolve fs dir with
  | Some n => glob_node dir n
  | None => []
  end.

(** ** Stripping strings and comments: the four [re.sub] calls

    Each substitution scans the text once from left to right, replaces the
    leftmost match and resumes right after it.  All four only delete
    characters: the replacement of a quoted match is its own two quotes, the
    replacement of a comment is empty.  A substitution is therefore a
    scanner: from its state, the current character and the text after it, it
    decides whether the character is kept and what the next state is. *)

Definition dquote : ascii := "034"%char.
Definition squote : ascii := "039"%char.
Definition slash : ascii := "/"%char.
Definition star : ascii := "*"%char.
Definition newline : ascii := "010"%char.
Definition lbrace : ascii := "{"%char.
Definition rbrace : ascii := "}"%char.

Section Scanner.
Context {S : Type}.
Variable step : S -> ascii -> string -> S * bool.

(** The text a scanner leaves of [s], started in state [st]. *)
Fixpoint scan (st : S) (s : string) : string :=
  match s with
  | EmptyString => EmptyString
  | String c r =>
      let (st', keep) := step st c r in
      if keep then String c (scan st' r) else scan st' r
  end.

(** The state the scanner is in after the prefix [pre] of [pre ++ post]. *)
Fixpoint state_after (st : S) (pre post : string) : S :=
  match pre with
  | EmptyString => st
  | String c r => state_after (fst (step st c (r ++ post))) r post
  end.

(** What the scanner leaves of the prefix [pre] of [pre ++ post]. *)
Fixpoint kept_prefix (st : S) (pre post : string) : string :=
  match pre with
  | EmptyString => EmptyString
  | String c r =>
      let (st', keep) := step st c (r ++ post) in
      if keep then String c (kept_prefix st' r post) else kept_prefix st' r post
  end.
End Scanner.

(** The first two substitutions: pattern QUOTE [[^QUOTE]*] QUOTE, replaced
    by two QUOTEs, for [q] the double quote and then for [q] the single
    quote.  A quote opens a match exactly when another quote follows
    somewhere (the negated class also matches newlines); the match ends at
    the next quote.  The state tells whether the scanner is between the
    quotes of a match. *)
Definition quoted_step (q : ascii) (inside : bool) (c : ascii) (rest : string)
  : bool * bool :=
  if inside then
    if (c =? q)%char then (false, true) else (true, false)
  else
    if (c =? q)%char && occurs q rest then (true, true) else (false, true).

Definition sub_quoted (q : ascii) : string -> string :=
  scan (quoted_step q) false.

Definition starts_with (c : ascii) (s : string) : bool :=
  match s with
  | EmptyString => false
  | String c' _ => (c' =? c)%char
  end.

(** The third substitution: pattern slash slash [.*], replaced by nothing.
    Two adjacent slashes open a match, which runs up to, and not including,
    the next newline (the dot matches everything but a newline). *)
Inductive line_state : Type :=
| LineCode      (* outside a match *)
| LineSlash     (* after the first slash of the opener *)
| LineBody.     (* after the opener, before the end of the line *)

Definition line_step (st : line_state) (c : ascii) (rest : string)
  : line_state * bool :=
  match st with
  | LineCode =>
      if (c =? slash)%char && starts_with slash rest then (LineSlash, false)
      else (LineCode, true)
  | LineSlash => (LineBody, false)
  | LineBody =>
      if (c =? newline)%char then (LineCode, true) else (LineBody, false)
  end.

Definition sub_line_comment : string -> string :=
  scan line_step LineCode.

(** Does the closer, star slash, occur in [s]? *)
Fixpoint has_close (s : string) : bool :=
  match s with
  | EmptyString => false
  | String c r => (c =? star)%char && starts_with slash r || has_close r
  end.

(** The fourth substitution: pattern slash star [.*?] star slash with
    DOTALL, replaced by nothing.  Slash star opens a match when a closer
    follows it; the lazy body ends the match at the first such closer. *)
Inductive block_state : Type :=
| BlockCode     (* outside a match *)
| BlockOpen     (* after the slash of the opener *)
| BlockBody     (* after the opener, before the closer *)
| BlockClose.   (* after the star of the closer *)

Definition block_step (st : block_state) (c : ascii) (rest : string)
  : block_state * bool :=
  match st with
  | BlockCode =>
      match rest with
      | String c' rest' =>
          if (c =? slash)%char && (c' =? star)%char && has_close rest'
          then (BlockOpen, false)
          else (BlockCode, true)
      | EmptyString => (BlockCode, true)
      end
  | BlockOpen => (BlockBody, false)
  | BlockBody =>
      if (c =? star)%char && starts_with slash rest then (BlockClose, false)
      else (BlockBody, false)
  | BlockClose => (BlockCode, false)
  end.

Definition sub_block_comment : string -> string :=
  scan block_step BlockCode.

(** [clean_content] as the loop body computes it from [content]. *)
Definition clean_content (content : string) : string :=
  let clean_content := sub_quoted dquote content in
  let clean_content := sub_quoted squote clean_content in
  let clean_content := sub_line_comment clean_content in
  sub_block_comment clean_content.

(** The test of the loop body: the two brace counts of [clean_content]
    differ. *)
Definition unbalanced (content : string) : bool :=
  negb (Nat.eqb (count lbrace (clean_content content)) (count rbrace (clean_content content))).

(** ** Where a character added to a file stands for the four substitutions

    The text of a file is [pre ++ post] and a character is added between the
    two parts.  Each substitution works on what the one before it left, so
    the place is followed through them in order: [pre] and [post] become
    what the substitution leaves of each. *)

(** The states in which a scanner is not between the two characters of an
    opener or of a closer. *)
Definition line_good (st : line_state) : Prop := st <> LineSlash.

Definition block_good (st : block_state) : Prop :=
  st = BlockCode \/ st = BlockBody.

Inductive place : Type :=
| Outside           (* outside every match of all four patterns *)
| InDoubleQuoted    (* between the quotes of a match of the first pattern *)
| InSingleQuoted    (* between the quotes of a match of the second pattern *)
| InLineComment     (* in a match of the third pattern, after its opener *)
| InBlockComment    (* in a match of the fourth pattern, between opener and closer *)
| InDelimiter.      (* between the two characters of an opener or of a closer *)

Definition place_of (pre post : string) : place :=
  if state_after (quoted_step dquote) false pre post then InDoubleQuoted else
  let pre1 := kept_prefix (quoted_step dquote) false pre post in
  let post1 := sub_quoted dquote post in
  if state_after (quoted_step squote) false pre1 post1 then InSingleQuoted else
  let pre2 := kept_prefix (quoted_step squote) false pre1 post1 in
  let post2 := sub_quoted squote post1 in
  match state_after line_step LineCode pre2 post2 with
  | LineBody => InLineComment
  | LineSlash => InDelimiter
  | LineCode =>
      let pre3 := kept_prefix line_step LineCode pre2 post2 in
      let post3 := sub_line_comment post2 in
      match state_after block_step BlockCode pre3 post3 with
      | BlockBody => InBlockComment
      | BlockCode => Outside
      | BlockOpen | BlockClose => InDelimiter
      end
  end.

(** ** Messages *)

(** An entry of [syntax_issues]. *)
Inductive syntax_issue : Type :=
| UnbalancedBraces (file_path : string)        (* {file_path}: Unbalanced braces *)
| ReadError (file_path : string) (e : exn).    (* {file_path}: Read error - {e} *)

Definition syntax_issue_file (i : syntax_issue) : string :=
  match i with
  | UnbalancedBraces file_path => file_path
  | ReadError file_path _ => file_path
  end.

(** An entry of [issues]. *)
Inductive issue : Type :=
| PbxprojMissing                                      (* ❌ project.pbxproj missing *)
| CannotReadPbxproj (e : exn)                         (* ❌ Cannot read project.pbxproj: {e} *)
| MissingSections (missing_sections : list string)    (* ❌ Missing project sections: {missing_sections} *)
| MainSwiftMismatch (expected found : nat)            (* ❌ Expected {expected_main_swift} main Swift files, found {len(main_swift)} *)
| TestSwiftMismatch (expected found : nat)            (* ❌ Expected {expected_test_swift} test Swift files, found {len(test_swift)} *)
| MissingDirectories (missing_dirs : list string)     (* ❌ Missing directories: {missing_dirs} *)
| MissingResourceFiles (missing_files : list string)  (* ❌ Missing resource files: {missing_files} *)
| SyntaxIssues (syntax_issues : list syntax_issue).   (* ❌ Syntax issues in critical files: {syntax_issues} *)

(** A printed line. *)
Inductive line : Type :=
| Title                          (* 🔍 JJYWave Project Integrity Validator *)
| TitleRule                      (* ===================================== *)
| ProjectFileReadable            (* ✅ Project file readable *)
| SectionsPresent                (* ✅ All required PBX sections present *)
| MainSwiftFiles (n : nat)       (* ✅ Main Swift files: {len(main_swift)} *)
| TestSwiftFiles (n : nat)       (* ✅ Test Swift files: {len(test_swift)} *)
| DirectoriesPresent             (* ✅ All required directories present *)
| ResourceFilesPresent           (* ✅ All key resource files present *)
| SyntaxCheckPassed              (* ✅ Critical files syntax check passed *)
| NotInProjectDirectory          (* ❌ Not in JJYWave project directory *)
| PleaseRunFromRoot              (*    Please run this script from the JJYWave project root *)
| SummaryRule                    (* an empty line, then fifty = signs *)
| ValidationPassed               (* 🎉 PROJECT VALIDATION PASSED *)
| NoCorruptionDetected           (* ✅ No corruption or structural issues detected *)
| ReadyForDevelopment            (* ✅ Project is ready for development *)
| ValidationFailed               (* ⚠️  PROJECT VALIDATION FAILED *)
| IssuesDetected                 (* ❌ Issues detected: *)
| IssueLine (i : issue)          (*    {issue} *)
| ConsiderComparing.             (* an empty line, then 💡 Consider comparing with a known good project state *)

(** ** The validation run *)

(** What a piece of the run contributes: the lines it prints and the issues
    it appends, in order. *)
Record run : Type := { out : list line; issues : list issue }.

Definition print (l : line) : run := {| out := [l]; issues := [] |}.
Definition append_issue (i : issue) : run := {| out := []; issues := [i] |}.
Definition seq (a b : run) : run :=
  {| out := (out a ++ out b)%list; issues := (issues a ++ issues b)%list |}.
Notation "a ;; b" := (seq a b) (at level 61, left associativity).

Definition required_sections : list string :=
  [ "Begin PBXBuildFile section";
    "Begin PBXFileReference section";
    "Begin PBXNativeTarget section";
    "Begin PBXProject section" ].

Definition expected_main_swift : nat := 17.
Definition expected_test_swift : nat := 20.

Definition required_dirs : list string :=
  [ "App"; "JJYKit/Audio"; "JJYKit/Frames"; "JJYKit/Generator";
    "JJYKit/Services"; "JJYKit/Time"; "Tests"; "JJYWaveTests" ].

Definition required_files : list string :=
  [ "Base.lproj/Main.storyboard"; "Localizable.xcstrings";
    "JJYWave.entitlements"; "README.md" ].

Definition critical_files : list string :=
  [ "JJYKit/Generator/JJYAudioGenerator.swift";
    "App/ViewController.swift";
    "App/AppDelegate.swift" ].

(** Step 2: the section markers of the manifest. *)
Definition missing_sections_of (pbx_content : string) : list string :=
  filter (fun section => negb (contains section pbx_content)) required_sections.

Definition check_sections (pbx_content : string) : run :=
  match missing_sections_of pbx_content with
  | [] => print SectionsPresent
  | missing_sections => append_issue (MissingSections missing_sections)
  end.

(** Step 3: the two counts of Swift files. *)
Definition is_test_path (f : string) : bool :=
  contains "/Tests/" f || contains "/JJYWaveTests/" f.

Definition is_main_path (f : string) : bool :=
  negb (contains "/Tests/" f) && negb (contains "/JJYWaveTests/" f).

Definition main_swift (swift_files : list string) : list string :=
  filter is_main_path swift_files.

Definition test_swift (swift_files : list string) : list string :=
  filter is_test_path swift_files.

Definition check_main_count (swift_files : list string) : run :=
  let found := List.length (main_swift swift_files) in
  if negb (Nat.eqb found expected_main_swift)
  then append_issue (MainSwiftMismatch expected_main_swift found)
  else print (MainSwiftFiles found).

Definition check_test_count (swift_files : list string) : run :=
  let found := List.length (test_swift swift_files) in
  if negb (Nat.eqb found expected_test_swift)
  then append_issue (TestSwiftMismatch expected_test_swift found)
  else print (TestSwiftFiles found).

(** Steps 4 and 5: the loop that collects the paths that do not exist. *)
Definition missing_under (fs : node) (project_root : string)
                         (paths : list string) : list string :=
  filter (fun p => negb (path_exists fs (project_root // p))) paths.

Definition check_dirs (fs : node) (project_root : string) : run :=
  match missing_under fs project_root required_dirs with
  | [] => print DirectoriesPresent
  | missing_dirs => append_issue (MissingDirectories missing_dirs)
  end.

Definition check_files (fs : node) (project_root : string) : run :=
  match missing_under fs project_root required_files with
  | [] => print ResourceFilesPresent
  | missing_files => append_issue (MissingResourceFiles missing_files)
  end.

(** Step 6: one turn of the loop over [critical_files]; what it appends to
    [syntax_issues]. *)
Definition syntax_check_file (fs : node) (project_root file_path : string)
  : list syntax_issue :=
  let full_path := project_root // file_path in
  if path_exists fs full_path then
    match open_read fs full_path with
    | Ok content =>
        if unbalanced content then [UnbalancedBraces file_path] else []
    | Raise e => [ReadError file_path e]
    end
  else [].

Definition syntax_issues_of (fs : node) (project_root : string)
  : list syntax_issue :=
  flat_map (syntax_check_file fs project_root) critical_files.

Definition check_syntax (fs : node) (project_root : string) : run :=
  match syntax_issues_of fs project_root with
  | [] => print SyntaxCheckPassed
  | syntax_issues => append_issue (SyntaxIssues syntax_issues)
  end.

Definition pbxproj_path (project_root : string) : string :=
  project_root // "JJYWave.xcodeproj" // "project.pbxproj".

(** [validate_project(project_root)], run on the filesystem [fs]: the lines
    it prints and the list it returns. *)
Definition validate_project (fs : node) (project_root : string) : run :=
  let banner := print Title ;; print TitleRule in
  let pbxproj_path := pbxproj_path project_root in
  if negb (path_exists fs pbxproj_path) then
    banner ;; append_issue PbxprojMissing
  else
    match open_read fs pbxproj_path with
    | Raise e => banner ;; append_issue (CannotReadPbxproj e)
    | Ok pbx_content =>
        let swift_files := glob_swift fs project_root in
        banner ;; print ProjectFileReadable
        ;; check_sections pbx_content
        ;; check_main_count swift_files
        ;; check_test_count swift_files
        ;; check_dirs fs project_root
        ;; check_files fs project_root
        ;; check_syntax fs project_root
    end.

(** The value [validate_project] returns. *)
Definition validate (fs : node) (project_root : string) : list issue :=
  issues (validate_project fs project_root).

(** The process: its filesystem and its working directory. *)
Record world : Type := { fs : node; cwd : string }.

(** [main()]: the printed lines and the value returned, which [sys.exit]
    makes the exit status. *)
Definition main (w : world) : list line * nat :=
  let project_root := cwd w in
  if negb (path_exists (fs w) (project_root // "JJYWave.xcodeproj")) then
    ([NotInProjectDirectory; PleaseRunFromRoot], 1)
  else
    let r := validate_project (fs w) project_root in
    match issues r with
    | [] =>
        ((out r ++ [SummaryRule; ValidationPassed; NoCorruptionDetected;
                    ReadyForDevelopment])%list, 0)
    | _ =>
        ((out r ++ [SummaryRule; ValidationFailed; IssuesDetected]
                ++ map IssueLine (issues r) ++ [ConsiderComparing])%list, 1)
    end.

Definition exit_status (w : world) : nat := snd (main w).

(** ** Which check an issue comes from *)

Inductive check : Type :=
| Manifest | Sections | MainCount | TestCount | Directories | ResourceFiles | Syntax.

Definition raised_by (i : issue) : check :=
  match i with
  | PbxprojMissing | CannotReadPbxproj _ => Manifest
  | MissingSections _ => Sections
  | MainSwiftMismatch _ _ => MainCount
  | TestSwiftMismatch _ _ => TestCount
  | MissingDirectories _ => Directories
  | MissingResourceFiles _ => ResourceFiles
  | SyntaxIssues _ => Syntax
  end.

Definition check_eqb (a b : check) : bool :=
  match a, b with
  | Manifest, Manifest | Sections, Sections | MainCount, MainCount
  | TestCount, TestCount | Directories, Directories
  | ResourceFiles, ResourceFiles | Syntax, Syntax => true
  | _, _ => false
  end.

(** The issues of a list that come from check [c], in order. *)
Definition issues_of (c : check) (l : list issue) : list issue :=
  filter (fun i => check_eqb (raised_by i) c) l.

(** ** Notions used to state further properties of the run *)

(** The place of a check in the order of the code. *)
Definition check_rank (c : check) : nat :=
  match c with
  | Manifest => 0
  | Sections => 1
  | MainCount => 2
  | TestCount => 3
  | Directories => 4
  | ResourceFiles => 5
  | Syntax => 6
  end.

(** The issues that the lines of a summary list, in order. *)
Definition listed_issues (l : list line) : list issue :=
  flat_map (fun x => match x with IssueLine i => [i] | _ => [] end) l.

(** A character that none of the four patterns mentions. *)
Definition inert (x : ascii) : Prop :=
  x <> dquote /\ x <> squote /\ x <> slash /\ x <> star /\ x <> newline.

(** ** A project that passes, and ways to damage it *)

Module Example.

Definition manifest : string :=
  "/* Begin PBXBuildFile section */ /* Begin PBXFileReference section */
   /* Begin PBXNativeTarget section */ /* Begin PBXProject section */".

Definition swift_source : string := "final class A { func f() { } }".

(** [n] Swift files with distinct names. *)
Fixpoint swift_named (stem : string) (n : nat) : list (string * node) :=
  match n with
  | O => []
  | S k => (stem ++ ".swift", File swift_source) :: swift_named (stem ++ "x") k
  end.

(** The project directory, given the node at App/AppDelegate.swift and the
    entry at README.md. *)
Definition project (app_delegate : list (string * node))
                   (readme : list (string * node)) : node :=
  Dir ([ ("JJYWave.xcodeproj", Dir [("project.pbxproj", File manifest)]);
         ("App", Dir ([("ViewController.swift", File swift_source)]
                      ++ app_delegate ++ swift_named "V" 1));
         ("JJYKit",
          Dir [ ("Audio", Dir (swift_named "A" 3));
                ("Frames", Dir (swift_named "F" 3));
                ("Generator", Dir [("JJYAudioGenerator.swift", File swift_source)]);
                ("Services", Dir (swift_named "S" 4));
                ("Time", Dir (swift_named "T" 3)) ]);
         ("Tests", Dir (swift_named "Test" 12));
         ("JJYWaveTests", Dir (swift_named "Case" 8));
         ("Base.lproj", Dir [("Main.storyboard", File "<document/>")]);
         ("Localizable.xcstrings", File "{}");
         ("JJYWave.entitlements", File "<plist/>") ]
       ++ readme)%list.

Definition at_home (project : node) : world :=
  {| fs := Dir [("home", Dir [("JJYWave", project)])];
     cwd := "/home/JJYWave" |}.

Definition healthy : world :=
  at_home (project [("AppDelegate.swift", File swift_source)]
                   [("README.md", File "JJYWave")]).

(** The same project with other text in App/AppDelegate.swift. *)
Definition with_app_delegate (content : string) : world :=
  at_home (project [("AppDelegate.swift", File content)]
                   [("README.md", File "JJYWave")]).

(** The same project with a directory in the place of README.md. *)
Definition readme_is_directory : world :=
  at_home (project [("AppDelegate.swift", File swift_source)]
                   [("README.md", Dir [])]).

(** Entries of a directory taken away by name. *)
Definition without (names : list string) (n : node) : node :=
  match n with
  | Dir entries =>
      Dir (filter (fun e => negb (existsb (String.eqb (fst e)) names)) entries)
  | _ => n
  end.

(** The healthy project less some entries of its top directory. *)
Definition lacking (names : list string) : world :=
  at_home (without names
             (project [("AppDelegate.swift", File swift_source)]
                      [("README.md", File "JJYWave")])).

(** The healthy project less App/AppDelegate.swift: sixteen main files. *)
Definition sixteen_main : world :=
  at_home (project [] [("README.md", File "JJYWave")]).

(** Texts for App/AppDelegate.swift, each in two parts between which an
    opening brace is added. *)
Definition in_code : string * string := ("final class A { func f() ", "{ } }").
Definition in_literal : string * string :=
  ("let s = " ++ String dquote "a", "b" ++ String dquote " // c").
Definition in_line_comment : string * string :=
  ("let n = 1 // see ", " below" ++ String newline "let m = 2").
Definition in_block_comment : string * string :=
  ("/* see ", " below */ let m = 2").
Definition before_line_comment_in_block : string * string :=
  ("/* ", " // */").

Definition brace_added (parts : string * string) : string :=
  fst parts ++ String lbrace (snd parts).

(** A working directory that holds nothing. *)
Definition elsewhere : world :=
  {| fs := Dir [("tmp", Dir [])]; cwd := "/tmp" |}.

(** The project directory with the manifest replaced by [n], or removed. *)
Definition with_manifest (n : list (string * node)) : world :=
  {| fs := Dir [("p", Dir [("JJYWave.xcodeproj", Dir n)])]; cwd := "/p" |}.



(** The healthy project, checked out below a directory named Tests. *)
Definition under_tests : world :=
  {| fs := Dir [("srv",
                 Dir [("Tests",
                       Dir [("JJYWave",
                             project [("AppDelegate.swift", File swift_source)]
                                     [("README.md", File "JJYWave")])])])];
     cwd := "/srv/Tests/JJYWave" |}.

(** A working directory in which JJYWave.xcodeproj is a regular file. *)
Definition bundle_is_a_file : world :=
  {| fs := Dir [("p", Dir [("JJYWave.xcodeproj", File "not a bundle")])];
     cwd := "/p" |}.

(** A project tree with Swift files below nested test directories. *)
Definition nested_tests : node :=
  Dir [("Modules",
        Dir [("Audio",
              Dir [("Tests", Dir [("Deep", Dir (swift_named "T" 2))]);
                   ("Tone.swift", File swift_source)])])].

End Example.

(** ** Paths and the tree *)

Lemma append_assoc (x y z : string) : (x ++ y) ++ z = x ++ (y ++ z).
Proof. induction x as [|c x IH]; simpl; [reflexivity | now rewrite IH]. Qed.

Lemma append_empty_r (x : string) : x ++ "" = x.
Proof. induction x as [|c x IH]; simpl; [reflexivity | now rewrite IH]. Qed.

Lemma split_on_nonempty (sep : ascii) (s : string) : split_on sep s <> [].
Proof.
  destruct s as [|c r]; simpl; [discriminate|].
  destruct (c =? sep)%char; [discriminate|].
  destruct (split_on sep r); discriminate.
Qed.

Lemma split_on_app (sep : ascii) (x y : string) :
  split_on sep (x ++ String sep y) = (split_on sep x ++ split_on sep y)%list.
Proof.
  induction x as [|c x IH]; simpl.
  - now rewrite Ascii.eqb_refl.
  - destruct (c =? sep)%char.
    + now rewrite IH.
    + rewrite IH. pose proof (split_on_nonempty sep x) as Hne.
      destruct (split_on sep x); [contradiction | reflexivity].
Qed.

Lemma components_app (x y : string) :
  components (x ++ String "/" y) = (components x ++ components y)%list.
Proof. unfold components. now rewrite split_on_app, filter_app. Qed.

Lemma ends_with_slash (p : string) :
  ends_with "/" p = true -> exists p0, p = p0 ++ "/".
Proof.
  induction p as [|c p IH]; [discriminate|].
  intros H.
  change (ends_with "/" (String c p))
    with ((String c p =? "/") || ends_with "/" p) in H.
  apply orb_true_iff in H as [H | H].
  - apply String.eqb_eq in H. exists "". exact H.
  - destruct (IH H) as [p0 ->]. now exists (String c p0).
Qed.

Lemma components_join (p q : string) :
  components (p // q) = (components p ++ components q)%list.
Proof.
  unfold joinpath. destruct (ends_with "/" p) eqn:E.
  - destruct (ends_with_slash p E) as [p0 ->].
    rewrite append_assoc. simpl.
    rewrite (components_app p0 q), (components_app p0 "").
    now rewrite <- app_assoc.
  - apply (components_app p q).
Qed.

Lemma walk_app (n : node) (a b : list string) :
  walk n (a ++ b) = match walk n a with Some m => walk m b | None => None end.
Proof.
  revert n. induction a as [|c a IH]; intros n; simpl; [reflexivity|].
  destruct n as [| | entries]; try reflexivity.
  destruct (assoc c entries); [apply IH | reflexivity].
Qed.

(** A path below a path that does not exist does not exist either. *)
Lemma exists_below (fs : node) (p q : string) :
  path_exists fs p = false -> path_exists fs (p // q) = false.
Proof.
  unfold path_exists, resolve. rewrite components_join, walk_app.
  destruct (walk fs (components p)); [discriminate | reflexivity].
Qed.

Lemma open_read_exists (fs : node) (path content : string) :
  open_read fs path = Ok content -> path_exists fs path = true.
Proof.
  unfold open_read, path_exists.
  destruct (resolve fs path) as [[| |]|]; now try discriminate.
Qed.

(** ** The shape of a run *)

Lemma validate_missing (fs : node) (project_root : string) :
  path_exists fs (pbxproj_path project_root) = false ->
  validate_project fs project_root =
  {| out := [Title; TitleRule]; issues := [PbxprojMissing] |}.
Proof. intros H. unfold validate_project. now rewrite H. Qed.

Lemma validate_unreadable (fs : node) (project_root : string) (e : exn) :
  path_exists fs (pbxproj_path project_root) = true ->
  open_read fs (pbxproj_path project_root) = Raise e ->
  validate_project fs project_root =
  {| out := [Title; TitleRule]; issues := [CannotReadPbxproj e] |}.
Proof. intros H1 H2. unfold validate_project. now rewrite H1, H2. Qed.

(** With a readable manifest the list returned is the concatenation of what
    the six checks append, in their order. *)
Lemma validate_readable (fs : node) (project_root pbx_content : string) :
  open_read fs (pbxproj_path project_root) = Ok pbx_content ->
  validate fs project_root =
  (issues (check_sections pbx_content)
   ++ issues (check_main_count (glob_swift fs project_root))
   ++ issues (check_test_count (glob_swift fs project_root))
   ++ issues (check_dirs fs project_root)
   ++ issues (check_files fs project_root)
   ++ issues (check_syntax fs project_root))%list.
Proof.
  intros H. unfold validate, validate_project.
  rewrite (open_read_exists _ _ _ H), H. simpl.
  now rewrite <- !app_assoc.
Qed.

Lemma output_readable (fs : node) (project_root pbx_content : string) :
  open_read fs (pbxproj_path project_root) = Ok pbx_content ->
  out (validate_project fs project_root) =
  ([Title; TitleRule; ProjectFileReadable]
   ++ out (check_sections pbx_content)
   ++ out (check_main_count (glob_swift fs project_root))
   ++ out (check_test_count (glob_swift fs project_root))
   ++ out (check_dirs fs project_root)
   ++ out (check_files fs project_root)
   ++ out (check_syntax fs project_root))%list.
Proof.
  intros H. unfold validate_project.
  rewrite (open_read_exists _ _ _ H), H. simpl.
  now rewrite <- !app_assoc.
Qed.

(** Every run appends at least one issue or none, and never returns without
    having decided: the list is empty only on the full path. *)
Lemma validate_cases (fs : node) (project_root : string) :
  validate_project fs project_root =
    {| out := [Title; TitleRule]; issues := [PbxprojMissing] |}
  \/ (exists e, validate_project fs project_root =
        {| out := [Title; TitleRule]; issues := [CannotReadPbxproj e] |})
  \/ (exists pbx_content,
        open_read fs (pbxproj_path project_root) = Ok pbx_content).
Proof.
  destruct (path_exists fs (pbxproj_path project_root)) eqn:E.
  - destruct (open_read fs (pbxproj_path project_root)) as [c|e] eqn:R.
    + right. right. now exists c.
    + right. left. exists e. now apply validate_unreadable.
  - left. now apply validate_missing.
Qed.

(** ** Issues sorted by the check they come from *)

Lemma issues_of_app (c : check) (a b : list issue) :
  issues_of c (a ++ b) = (issues_of c a ++ issues_of c b)%list.
Proof. apply filter_app. Qed.

Lemma in_issues_of (c : check) (i : issue) (l : list issue) :
  In i (issues_of c l) <-> In i l /\ raised_by i = c.
Proof.
  unfold issues_of. rewrite filter_In.
  split; intros [H1 H2]; split; trivial.
  - destruct (raised_by i), c; simpl in H2; congruence.
  - rewrite H2. now destruct c.
Qed.

Lemma sections_issues (pbx_content : string) :
  issues (check_sections pbx_content) =
  match missing_sections_of pbx_content with
  | [] => []
  | _ => [MissingSections (missing_sections_of pbx_content)]
  end.
Proof. unfold check_sections. now destruct (missing_sections_of pbx_content). Qed.

Lemma main_count_issues (swift_files : list string) :
  issues (check_main_count swift_files) =
  if Nat.eqb (List.length (main_swift swift_files)) 17 then []
  else [MainSwiftMismatch 17 (List.length (main_swift swift_files))].
Proof.
  unfold check_main_count, expected_main_swift.
  now destruct (Nat.eqb (List.length (main_swift swift_files)) 17).
Qed.

Lemma test_count_issues (swift_files : list string) :
  issues (check_test_count swift_files) =
  if Nat.eqb (List.length (test_swift swift_files)) 20 then []
  else [TestSwiftMismatch 20 (List.length (test_swift swift_files))].
Proof.
  unfold check_test_count, expected_test_swift.
  now destruct (Nat.eqb (List.length (test_swift swift_files)) 20).
Qed.

Lemma dirs_issues (fs : node) (project_root : string) :
  issues (check_dirs fs project_root) =
  match missing_under fs project_root required_dirs with
  | [] => []
  | _ => [MissingDirectories (missing_under fs project_root required_dirs)]
  end.
Proof.
  unfold check_dirs. now destruct (missing_under fs project_root required_dirs).
Qed.

Lemma files_issues (fs : node) (project_root : string) :
  issues (check_files fs project_root) =
  match missing_under fs project_root required_files with
  | [] => []
  | _ => [MissingResourceFiles (missing_under fs project_root required_files)]
  end.
Proof.
  unfold check_files. now destruct (missing_under fs project_root required_files).
Qed.

Lemma syntax_check_issues (fs : node) (project_root : string) :
  issues (check_syntax fs project_root) =
  match syntax_issues_of fs project_root with
  | [] => []
  | _ => [SyntaxIssues (syntax_issues_of fs project_root)]
  end.
Proof.
  unfold check_syntax. now destruct (syntax_issues_of fs project_root).
Qed.

(** With a readable manifest, the issues of each check are exactly what that
    check appends: no check adds to, or takes from, another one's issues. *)
Lemma validate_by_check (fs : node) (project_root pbx_content : string) (c : check) :
  open_read fs (pbxproj_path project_root) = Ok pbx_content ->
  issues_of c (validate fs project_root) =
  match c with
  | Manifest => []
  | Sections => issues (check_sections pbx_content)
  | MainCount => issues (check_main_count (glob_swift fs project_root))
  | TestCount => issues (check_test_count (glob_swift fs project_root))
  | Directories => issues (check_dirs fs project_root)
  | ResourceFiles => issues (check_files fs project_root)
  | Syntax => issues (check_syntax fs project_root)
  end.
Proof.
  intros H. rewrite (validate_readable _ _ _ H), !issues_of_app.
  rewrite sections_issues, main_count_issues, test_count_issues,
    dirs_issues, files_issues, syntax_check_issues.
  destruct (missing_sections_of pbx_content);
    destruct (Nat.eqb (List.length (main_swift (glob_swift fs project_root))) 17);
    destruct (Nat.eqb (List.length (test_swift (glob_swift fs project_root))) 20);
    destruct (missing_under fs project_root required_dirs);
    destruct (missing_under fs project_root required_files);
    destruct (syntax_issues_of fs project_root);
    destruct c; reflexivity.
Qed.

(** Without a readable manifest only the manifest check has run. *)
Lemma validate_by_check_fatal (fs : node) (project_root : string) (c : check) :
  (forall pbx_content, open_read fs (pbxproj_path project_root) <> Ok pbx_content) ->
  c <> Manifest ->
  issues_of c (validate fs project_root) = [].
Proof.
  intros H Hc. unfold validate.
  destruct (validate_cases fs project_root) as [E | [[e E] | [content E]]].
  - rewrite E. now destruct c.
  - rewrite E. now destruct c.
  - now apply H in E.
Qed.

Lemma missing_under_In (fs : node) (project_root : string)
                       (paths : list string) (p : string) :
  In p (missing_under fs project_root paths) <->
  In p paths /\ path_exists fs (project_root // p) = false.
Proof.
  unfold missing_under. rewrite filter_In.
  now rewrite negb_true_iff.
Qed.

(** ** Exit status *)

(** C1.  The exit status is 0 exactly when the list [validate_project]
    returns for the working directory is empty, and 1 as soon as it holds an
    issue.  When JJYWave.xcodeproj is absent [main] returns 1 without calling
    [validate_project]; the manifest below it is then absent too, so the list
    would not have been empty either. *)
Theorem exit_status_reflects_issues (w : world) :
  (exit_status w = 0 <-> validate (fs w) (cwd w) = []) /\
  (validate (fs w) (cwd w) <> [] -> exit_status w = 1) /\
  (path_exists (fs w) (cwd w // "JJYWave.xcodeproj") = false ->
   exit_status w = 1 /\ validate (fs w) (cwd w) = [PbxprojMissing]).
Proof.
  unfold exit_status, main, validate.
  destruct (path_exists (fs w) (cwd w // "JJYWave.xcodeproj")) eqn:E; simpl.
  - destruct (issues (validate_project (fs w) (cwd w))) as [|i l]; simpl.
    + repeat split; congruence.
    + repeat split; congruence.
  - pose proof (exists_below _ _ "project.pbxproj" E) as M.
    rewrite (validate_missing _ _ M). simpl.
    repeat split; congruence.
Qed.

Lemma exit_status_reflects_issues_witness :
  exit_status Example.healthy = 0 /\ exit_status Example.elsewhere = 1.
Proof.
  split.
  - apply (proj1 (exit_status_reflects_issues Example.healthy)).
    vm_compute. reflexivity.
  - apply (proj2 (proj2 (exit_status_reflects_issues Example.elsewhere))).
    vm_compute. reflexivity.
Defined.

(** ** The two fatal conditions *)

(** C2.  When the manifest does not exist, [validate_project] returns the
    single issue of the missing manifest, and nothing after the existence
    test has run: only the two title lines are printed, and the run is the
    same whatever else the filesystem holds. *)
Theorem manifest_missing_short_circuit (fs : node) (project_root : string) :
  path_exists fs (pbxproj_path project_root) = false ->
  validate fs project_root = [PbxprojMissing] /\
  out (validate_project fs project_root) = [Title; TitleRule] /\
  (forall c, c <> Manifest -> issues_of c (validate fs project_root) = []) /\
  (forall fs', path_exists fs' (pbxproj_path project_root) = false ->
               validate_project fs' project_root = validate_project fs project_root).
Proof.
  intros H. unfold validate. rewrite (validate_missing _ _ H). simpl.
  repeat split.
  - intros c Hc. now destruct c.
  - intros fs' H'. now apply validate_missing.
Qed.

Lemma manifest_missing_short_circuit_witness :
  validate (fs (Example.with_manifest [])) "/p" = [PbxprojMissing].
Proof.
  apply (manifest_missing_short_circuit (fs (Example.with_manifest [])) "/p").
  vm_compute. reflexivity.
Defined.

(** C7.  When the manifest exists and reading it raises [e],
    [validate_project] returns the single issue that carries [e], and
    nothing after the read has run. *)
Theorem manifest_unreadable_short_circuit
        (fs : node) (project_root : string) (e : exn) :
  path_exists fs (pbxproj_path project_root) = true ->
  open_read fs (pbxproj_path project_root) = Raise e ->
  validate fs project_root = [CannotReadPbxproj e] /\
  out (validate_project fs project_root) = [Title; TitleRule] /\
  (forall c, c <> Manifest -> issues_of c (validate fs project_root) = []).
Proof.
  intros H1 H2. unfold validate. rewrite (validate_unreadable _ _ _ H1 H2).
  simpl. repeat split. intros c Hc. now destruct c.
Qed.

Lemma manifest_unreadable_short_circuit_witness :
  validate (fs (Example.with_manifest
                  [("project.pbxproj", Unreadable "[Errno 13] Permission denied")]))
           "/p"
  = [CannotReadPbxproj (ReadFailure "[Errno 13] Permission denied")].
Proof.
  apply (manifest_unreadable_short_circuit
           (fs (Example.with_manifest
                  [("project.pbxproj", Unreadable "[Errno 13] Permission denied")]))
           "/p" (ReadFailure "[Errno 13] Permission denied")).
  - vm_compute. reflexivity.
  - vm_compute. reflexivity.
Defined.

(** ** The checks that follow a readable manifest *)

(** C6.  The section check appends one issue that lists the markers absent
    from the manifest text, all of them and only them, when there is one;
    it appends nothing when the four markers are present. *)
Theorem sections_one_issue (fs : node) (project_root pbx_content : string) :
  open_read fs (pbxproj_path project_root) = Ok pbx_content ->
  issues_of Sections (validate fs project_root) =
    match missing_sections_of pbx_content with
    | [] => []
    | _ => [MissingSections (missing_sections_of pbx_content)]
    end /\
  (forall section, In section (missing_sections_of pbx_content) <->
                   In section required_sections /\
                   contains section pbx_content = false) /\
  List.length required_sections = 4.
Proof.
  intros H. rewrite (validate_by_check _ _ _ Sections H), sections_issues.
  split; [reflexivity|]. split; [|reflexivity].
  intros section. unfold missing_sections_of.
  now rewrite filter_In, negb_true_iff.
Qed.

Lemma sections_one_issue_witness :
  issues_of Sections
    (validate (fs (Example.with_manifest
                     [("project.pbxproj", File "Begin PBXProject section")])) "/p")
  = [MissingSections ["Begin PBXBuildFile section";
                      "Begin PBXFileReference section";
                      "Begin PBXNativeTarget section"]].
Proof.
  apply (proj1 (sections_one_issue
                  (fs (Example.with_manifest
                         [("project.pbxproj", File "Begin PBXProject section")]))
                  "/p" "Begin PBXProject section" eq_refl)).
Defined.

(** C3.  The two counts are checked one after the other and each on its
    own: the issues of the main count are the one issue (17 expected, the
    count found) when the count is not 17 and none otherwise, whatever the
    test count is, and likewise for the test count and 20. *)
Theorem counts_checked_independently
        (fs : node) (project_root pbx_content : string) :
  open_read fs (pbxproj_path project_root) = Ok pbx_content ->
  issues_of MainCount (validate fs project_root) =
    (if Nat.eqb (List.length (main_swift (glob_swift fs project_root))) 17
     then []
     else [MainSwiftMismatch 17 (List.length (main_swift (glob_swift fs project_root)))]) /\
  issues_of TestCount (validate fs project_root) =
    (if Nat.eqb (List.length (test_swift (glob_swift fs project_root))) 20
     then []
     else [TestSwiftMismatch 20 (List.length (test_swift (glob_swift fs project_root)))]).
Proof.
  intros H. split.
  - now rewrite (validate_by_check _ _ _ MainCount H), main_count_issues.
  - now rewrite (validate_by_check _ _ _ TestCount H), test_count_issues.
Qed.

(** C5.  The directory check appends one issue that lists the missing ones
    of the eight directories, all of them and only them, when one is
    missing, and no issue when none is. *)
Theorem directories_one_issue (fs : node) (project_root pbx_content : string) :
  open_read fs (pbxproj_path project_root) = Ok pbx_content ->
  issues_of Directories (validate fs project_root) =
    match missing_under fs project_root required_dirs with
    | [] => []
    | _ => [MissingDirectories (missing_under fs project_root required_dirs)]
    end /\
  (forall p, In p (missing_under fs project_root required_dirs) <->
             In p required_dirs /\ path_exists fs (project_root // p) = false) /\
  List.length (issues_of Directories (validate fs project_root)) <= 1 /\
  List.length required_dirs = 8.
Proof.
  intros H. rewrite (validate_by_check _ _ _ Directories H), dirs_issues.
  split; [reflexivity|]. split; [intros p; apply missing_under_In|].
  split; [|reflexivity].
  destruct (missing_under fs project_root required_dirs); simpl; lia.
Qed.

Lemma counts_checked_independently_witness :
  issues_of MainCount (validate (fs Example.sixteen_main) "/home/JJYWave")
  = [MainSwiftMismatch 17 16] /\
  issues_of TestCount (validate (fs Example.sixteen_main) "/home/JJYWave") = [].
Proof.
  exact (counts_checked_independently
           (fs Example.sixteen_main) "/home/JJYWave" Example.manifest eq_refl).
Defined.

Lemma directories_one_issue_witness :
  issues_of Directories
    (validate (fs (Example.lacking ["Tests"; "JJYWaveTests"])) "/home/JJYWave")
  = [MissingDirectories ["Tests"; "JJYWaveTests"]].
Proof.
  exact (proj1 (directories_one_issue
                  (fs (Example.lacking ["Tests"; "JJYWaveTests"]))
                  "/home/JJYWave" Example.manifest eq_refl)).
Defined.

(** C9.  The test predicate and the main predicate are negations of each
    other, so every enumerated Swift file is in exactly one of the two
    lists and the two counts add up to the number of files found. *)
Theorem swift_files_partitioned (fs : node) (project_root : string) :
  (forall f, is_main_path f = negb (is_test_path f)) /\
  List.length (main_swift (glob_swift fs project_root))
  + List.length (test_swift (glob_swift fs project_root))
  = List.length (glob_swift fs project_root) /\
  (forall f, In f (glob_swift fs project_root) ->
             (In f (main_swift (glob_swift fs project_root)) /\
              ~ In f (test_swift (glob_swift fs project_root))) \/
             (In f (test_swift (glob_swift fs project_root)) /\
              ~ In f (main_swift (glob_swift fs project_root)))).
Proof.
  assert (N : forall f, is_main_path f = negb (is_test_path f)).
  { intros f. unfold is_main_path, is_test_path. now rewrite negb_orb. }
  split; [exact N|]. split.
  - unfold main_swift, test_swift.
    induction (glob_swift fs project_root) as [|f l IH]; simpl; [reflexivity|].
    rewrite N. destruct (is_test_path f); simpl; lia.
  - intros f Hf. unfold main_swift, test_swift. rewrite !filter_In, N.
    destruct (is_test_path f); simpl; [right | left]; intuition congruence.
Qed.

Lemma swift_files_partitioned_witness :
  List.length (main_swift (glob_swift (fs Example.healthy) "/home/JJYWave"))
  + List.length (test_swift (glob_swift (fs Example.healthy) "/home/JJYWave"))
  = 37.
Proof.
  rewrite (proj1 (proj2 (swift_files_partitioned (fs Example.healthy) "/home/JJYWave"))).
  vm_compute. reflexivity.
Defined.

(** ** Files and directories that the checks look for *)

Lemma syntax_check_file_names (fs : node) (project_root file_path : string)
                              (i : syntax_issue) :
  In i (syntax_check_file fs project_root file_path) ->
  syntax_issue_file i = file_path.
Proof.
  unfold syntax_check_file.
  destruct (path_exists fs (project_root // file_path)); [|contradiction].
  destruct (open_read fs (project_root // file_path)) as [content|e].
  - destruct (unbalanced content); [|contradiction].
    intros [<- | []]. reflexivity.
  - intros [<- | []]. reflexivity.
Qed.

Lemma syntax_issues_reported (fs : node) (project_root : string)
                             (l : list syntax_issue) :
  In (SyntaxIssues l) (validate fs project_root) ->
  l = syntax_issues_of fs project_root.
Proof.
  intros H.
  assert (H' : In (SyntaxIssues l) (issues_of Syntax (validate fs project_root)))
    by now apply in_issues_of.
  destruct (validate_cases fs project_root) as [E | [[e E] | [content E]]].
  - unfold validate in H'. rewrite E in H'. contradiction.
  - unfold validate in H'. rewrite E in H'. contradiction.
  - rewrite (validate_by_check _ _ _ Syntax E), syntax_check_issues in H'.
    destruct (syntax_issues_of fs project_root); [contradiction|].
    destruct H' as [H' | []]. congruence.
Qed.

(** C8.  A critical file that does not exist is passed over: its turn of
    the loop appends nothing, no entry of the aggregated issue names it, the
    entries are those of the other files, and when none of the critical
    files exists the check prints its success line. *)
Theorem absent_critical_file_skipped
        (fs : node) (project_root file_path : string) :
  In file_path critical_files ->
  path_exists fs (project_root // file_path) = false ->
  syntax_check_file fs project_root file_path = [] /\
  syntax_issues_of fs project_root =
    flat_map (syntax_check_file fs project_root)
             (filter (fun f => negb (f =? file_path)) critical_files) /\
  (forall l, In (SyntaxIssues l) (validate fs project_root) ->
             forall i, In i l -> syntax_issue_file i <> file_path) /\
  ((forall f, In f critical_files -> path_exists fs (project_root // f) = false) ->
   check_syntax fs project_root = print SyntaxCheckPassed).
Proof.
  intros Hin Hno.
  assert (E : syntax_check_file fs project_root file_path = [])
    by (unfold syntax_check_file; now rewrite Hno).
  assert (F : syntax_issues_of fs project_root =
              flat_map (syntax_check_file fs project_root)
                (filter (fun f => negb (f =? file_path)) critical_files)).
  { unfold syntax_issues_of. clear Hin.
    induction critical_files as [|f l IH]; simpl; [reflexivity|].
    destruct (String.eqb_spec f file_path) as [-> | Hne]; simpl.
    - rewrite E. simpl. apply IH.
    - f_equal. apply IH. }
  split; [exact E|]. split; [exact F|]. split.
  - intros l Hl i Hi Hname.
    apply syntax_issues_reported in Hl. subst l. rewrite F in Hi.
    apply in_flat_map in Hi as [f [Hf Hi]].
    apply filter_In in Hf as [_ Hf].
    apply syntax_check_file_names in Hi.
    rewrite Hi in Hname. rewrite Hname, String.eqb_refl in Hf. discriminate.
  - intros Hall. unfold check_syntax, syntax_issues_of.
    assert (Z : forall l, (forall f, In f l -> path_exists fs (project_root // f) = false) ->
                          flat_map (syntax_check_file fs project_root) l = []).
    { induction l as [|f l IH]; intros Hl; simpl; [reflexivity|].
      unfold syntax_check_file at 1. rewrite (Hl f (or_introl eq_refl)).
      simpl. apply IH. intros g Hg. apply Hl. now right. }
    now rewrite (Z _ Hall).
Qed.

Lemma absent_critical_file_skipped_witness :
  syntax_check_file (fs Example.sixteen_main) "/home/JJYWave" "App/AppDelegate.swift"
  = [].
Proof.
  apply (absent_critical_file_skipped
           (fs Example.sixteen_main) "/home/JJYWave" "App/AppDelegate.swift").
  - simpl. tauto.
  - vm_compute. reflexivity.
Defined.

(** C10.  The resource check and the directory check ask whether a path
    exists, not what is there.  Whatever node stands at a required path, a
    directory at the path of a resource file or a regular file at the path of
    a directory, the path is listed in no issue of missing paths; and when
    something stands at each of the four resource paths, no issue of missing
    resource files is appended. *)
Theorem existence_is_all_that_is_checked
        (fs : node) (project_root p : string) (n : node) :
  resolve fs (project_root // p) = Some n ->
  (forall l, In (MissingResourceFiles l) (validate fs project_root) -> ~ In p l) /\
  (forall l, In (MissingDirectories l) (validate fs project_root) -> ~ In p l) /\
  ~ In p (missing_under fs project_root required_files) /\
  ((forall q, In q required_files -> path_exists fs (project_root // q) = true) ->
   forall l, ~ In (MissingResourceFiles l) (validate fs project_root)).
Proof.
  intros Hn.
  assert (Hex : path_exists fs (project_root // p) = true)
    by (unfold path_exists; now rewrite Hn).
  assert (Hnot : forall paths, ~ In p (missing_under fs project_root paths)).
  { intros paths Hp. apply missing_under_In in Hp as [_ Hp]. congruence. }
  assert (Hfiles : forall l, In (MissingResourceFiles l) (validate fs project_root) ->
                             l = missing_under fs project_root required_files /\ l <> []).
  { intros l H.
    assert (H' : In (MissingResourceFiles l)
                    (issues_of ResourceFiles (validate fs project_root)))
      by now apply in_issues_of.
    destruct (validate_cases fs project_root) as [E | [[e E] | [content E]]].
    - unfold validate in H'. rewrite E in H'. contradiction.
    - unfold validate in H'. rewrite E in H'. contradiction.
    - rewrite (validate_by_check _ _ _ ResourceFiles E), files_issues in H'.
      destruct (missing_under fs project_root required_files) eqn:M; [contradiction|].
      destruct H' as [H' | []]. split; congruence. }
  assert (Hdirs : forall l, In (MissingDirectories l) (validate fs project_root) ->
                            l = missing_under fs project_root required_dirs).
  { intros l H.
    assert (H' : In (MissingDirectories l)
                    (issues_of Directories (validate fs project_root)))
      by now apply in_issues_of.
    destruct (validate_cases fs project_root) as [E | [[e E] | [content E]]].
    - unfold validate in H'. rewrite E in H'. contradiction.
    - unfold validate in H'. rewrite E in H'. contradiction.
    - rewrite (validate_by_check _ _ _ Directories E), dirs_issues in H'.
      destruct (missing_under fs project_root required_dirs) eqn:M; [contradiction|].
      destruct H' as [H' | []]. congruence. }
  split; [|split; [|split]].
  - intros l Hl. destruct (Hfiles l Hl) as [-> _]. apply Hnot.
  - intros l Hl. rewrite (Hdirs l Hl). apply Hnot.
  - apply Hnot.
  - intros Hall l Hl. destruct (Hfiles l Hl) as [-> Hne]. apply Hne.
    destruct (missing_under fs project_root required_files) as [|q r] eqn:M;
      [reflexivity|].
    assert (Hq : In q (missing_under fs project_root required_files))
      by (rewrite M; now left).
    apply missing_under_In in Hq as [Hq1 Hq2].
    rewrite (Hall q Hq1) in Hq2. discriminate.
Qed.

Lemma existence_is_all_that_is_checked_witness :
  ~ In "README.md"
       (missing_under (fs Example.readme_is_directory) "/home/JJYWave" required_files)
  /\ validate (fs Example.readme_is_directory) "/home/JJYWave" = [].
Proof.
  split.
  - apply (existence_is_all_that_is_checked
             (fs Example.readme_is_directory) "/home/JJYWave" "README.md" (Dir [])).
    vm_compute. reflexivity.
  - vm_compute. reflexivity.
Defined.

(** ** The scanners compute the substitutions

    A substitution goes through the text from the left.  Where a match of
    the pattern starts, the match is replaced and the scan resumes after it;
    elsewhere the character is kept and the scan moves on by one.  For each
    pattern the two equations are proved of its scanner, with the match
    that the pattern finds at a position spelled out. *)

Lemma quoted_body (q : ascii) (body rest : string) :
  occurs q body = false ->
  scan (quoted_step q) true (body ++ String q rest) =
  String q (sub_quoted q rest).
Proof.
  induction body as [|a body IH]; simpl.
  - intros _. now rewrite Ascii.eqb_refl.
  - intros H. apply orb_false_iff in H as [H1 H2]. rewrite H1. now apply IH.
Qed.

(** A quote, text without a quote, a quote: the match, replaced by the two
    quotes. *)
Lemma sub_quoted_at_match (q : ascii) (body rest : string) :
  occurs q body = false ->
  sub_quoted q (String q (body ++ String q rest)) =
  String q (String q (sub_quoted q rest)).
Proof.
  intros H. unfold sub_quoted at 1. simpl. rewrite Ascii.eqb_refl.
  assert (O : occurs q (body ++ String q rest) = true).
  { clear H. induction body as [|a body IH]; simpl.
    - now rewrite Ascii.eqb_refl.
    - rewrite IH. apply orb_true_r. }
  rewrite O. simpl. now rewrite quoted_body.
Qed.

(** No match starts at a character that is not a quote, or that no quote
    follows. *)
Lemma sub_quoted_off_match (q c : ascii) (rest : string) :
  (c =? q)%char && occurs q rest = false ->
  sub_quoted q (String c rest) = String c (sub_quoted q rest).
Proof. intros H. unfold sub_quoted. simpl. now rewrite H. Qed.

Lemma line_body (body rest : string) :
  occurs newline body = false ->
  rest = "" \/ starts_with newline rest = true ->
  scan line_step LineBody (body ++ rest) = sub_line_comment rest.
Proof.
  intros H R. induction body as [|a body IH]; simpl in *.
  - destruct R as [-> | R]; [reflexivity|].
    destruct rest as [|b rest]; [discriminate|]. simpl in R.
    apply Ascii.eqb_eq in R. subst b. unfold sub_line_comment. simpl.
    now destruct rest.
  - apply orb_false_iff in H as [H1 H2]. rewrite H1. now apply IH.
Qed.

(** Two slashes and the rest of the line: the match, replaced by nothing. *)
Lemma sub_line_comment_at_match (body rest : string) :
  occurs newline body = false ->
  rest = "" \/ starts_with newline rest = true ->
  sub_line_comment (String slash (String slash (body ++ rest))) =
  sub_line_comment rest.
Proof.
  intros H R. unfold sub_line_comment at 1. simpl. now apply line_body.
Qed.

(** No match starts at a character that is not a slash followed by a
    slash. *)
Lemma sub_line_comment_off_match (c : ascii) (rest : string) :
  (c =? slash)%char && starts_with slash rest = false ->
  sub_line_comment (String c rest) = String c (sub_line_comment rest).
Proof. intros H. unfold sub_line_comment. simpl. now rewrite H. Qed.

Lemma block_body (body rest : string) :
  has_close body = false ->
  scan block_step BlockBody (body ++ String star (String slash rest)) =
  sub_block_comment rest.
Proof.
  induction body as [|a body IH]; simpl.
  - reflexivity.
  - intros H. apply orb_false_iff in H as [H1 H2].
    destruct body as [|b body]; simpl in *.
    + now rewrite andb_false_r.
    + rewrite H1. now apply IH.
Qed.

Lemma has_close_closer (body rest : string) :
  has_close (body ++ String star (String slash rest)) = true.
Proof.
  induction body as [|a body IH]; simpl; [reflexivity|].
  rewrite IH. apply orb_true_r.
Qed.

(** Slash star, text without a closer, star slash: the match, replaced by
    nothing. *)
Lemma sub_block_comment_at_match (body rest : string) :
  has_close body = false ->
  sub_block_comment
    (String slash (String star (body ++ String star (String slash rest)))) =
  sub_block_comment rest.
Proof.
  intros H. unfold sub_block_comment at 1. simpl.
  rewrite has_close_closer. simpl. now apply block_body.
Qed.

(** No match starts at a character that is not the slash of a slash star
    which a closer follows. *)
Lemma sub_block_comment_off_match (c : ascii) (rest : string) :
  match rest with
  | String c' rest' => (c =? slash)%char && (c' =? star)%char && has_close rest'
  | EmptyString => false
  end = false ->
  sub_block_comment (String c rest) = String c (sub_block_comment rest).
Proof.
  intros H. unfold sub_block_comment. simpl.
  destruct rest as [|c' rest']; [reflexivity|]. now rewrite H.
Qed.

(** ** Scanners and a character added to the text *)

Section ScannerFacts.
Context {S : Type}.
Variable step : S -> ascii -> string -> S * bool.

(** A scan of [pre ++ post] is what is kept of [pre], then the scan of
    [post] from the state reached. *)
Lemma scan_app (pre post : string) (st : S) :
  scan step st (pre ++ post) =
  kept_prefix step st pre post ++ scan step (state_after step st pre post) post.
Proof.
  revert st. induction pre as [|c r IH]; intros st; simpl; [reflexivity|].
  destruct (step st c (r ++ post)) as [st' keep]; simpl.
  rewrite IH. now destruct keep.
Qed.

(** [x] is a character that no step tells from ordinary text, except
    through the text that follows: a step that would read the text
    differently with [x] added after [r] leaves the scanner, at the end
    of [r], in a state that is not [good]. *)
Variable x : ascii.
Variable good : S -> Prop.
Hypothesis lookahead :
  forall st c r post,
    good (state_after step (fst (step st c (r ++ post))) r post) ->
    step st c (r ++ String x post) = step st c (r ++ post).

Lemma prefix_stable (pre post : string) (st : S) :
  good (state_after step st pre post) ->
  state_after step st pre (String x post) = state_after step st pre post /\
  kept_prefix step st pre (String x post) = kept_prefix step st pre post.
Proof.
  revert st. induction pre as [|c r IH]; intros st G; simpl in *.
  - now split.
  - rewrite (lookahead st c r post G).
    destruct (step st c (r ++ post)) as [st' keep]; simpl in *.
    destruct (IH st' G) as [A B]. now rewrite A, B.
Qed.

(** Added where the scanner keeps it and stays in its state. *)
Lemma insert_kept (pre post : string) (st : S) :
  good (state_after step st pre post) ->
  step (state_after step st pre post) x post = (state_after step st pre post, true) ->
  scan step st (pre ++ String x post) =
  kept_prefix step st pre post
  ++ String x (scan step (state_after step st pre post) post).
Proof.
  intros G K. rewrite scan_app.
  destruct (prefix_stable pre post st G) as [A B]. rewrite A, B.
  simpl. now rewrite K.
Qed.

(** Added where the scanner drops it and stays in its state. *)
Lemma insert_dropped (pre post : string) (st : S) :
  good (state_after step st pre post) ->
  step (state_after step st pre post) x post = (state_after step st pre post, false) ->
  scan step st (pre ++ String x post) = scan step st (pre ++ post).
Proof.
  intros G K. rewrite !scan_app.
  destruct (prefix_stable pre post st G) as [A B]. rewrite A, B.
  simpl. now rewrite K.
Qed.
End ScannerFacts.

Lemma occurs_insert (q x : ascii) (r post : string) :
  x <> q -> occurs q (r ++ String x post) = occurs q (r ++ post).
Proof.
  intros N. induction r as [|a r IH]; simpl.
  - apply Ascii.eqb_neq in N. now rewrite N.
  - now rewrite IH.
Qed.

Lemma quoted_lookahead (q x : ascii) :
  x <> q ->
  forall (st : bool) c r post,
    True ->
    quoted_step q st c (r ++ String x post) = quoted_step q st c (r ++ post).
Proof.
  intros N st c r post _. unfold quoted_step. now rewrite occurs_insert.
Qed.

Lemma line_lookahead (x : ascii) :
  x <> slash ->
  forall st c r post,
    line_good (state_after line_step (fst (line_step st c (r ++ post))) r post) ->
    line_step st c (r ++ String x post) = line_step st c (r ++ post).
Proof.
  intros N st c r post G. destruct st; try reflexivity.
  destruct r as [|a r]; [|reflexivity].
  simpl in *. apply Ascii.eqb_neq in N. rewrite N.
  destruct (c =? slash)%char; simpl in *; [|reflexivity].
  destruct (starts_with slash post); simpl in *; [|reflexivity].
  now elim G.
Qed.

Lemma has_close_insert (x : ascii) (r post : string) :
  x <> star -> x <> slash ->
  has_close (r ++ String x post) = true -> has_close (r ++ post) = true.
Proof.
  intros N1 N2. apply Ascii.eqb_neq in N1, N2.
  induction r as [|a r IH]; simpl.
  - now rewrite N1.
  - intros H. apply orb_true_iff in H as [H | H].
    + destruct r as [|b r]; simpl in *.
      * rewrite N2, andb_false_r in H. discriminate.
      * now rewrite H.
    + rewrite (IH H). apply orb_true_r.
Qed.

(** When the only closer after an opener is one that the added character
    would split, the scanner is between the two characters of that closer
    at the place of the addition. *)
Lemma body_straddle (x : ascii) (r post : string) :
  x <> star ->
  has_close (r ++ post) = true ->
  has_close (r ++ String x post) = false ->
  state_after block_step BlockBody r post = BlockClose.
Proof.
  intros N. apply Ascii.eqb_neq in N.
  induction r as [|a r IH]; simpl.
  - rewrite N. simpl. congruence.
  - intros H1 H2. apply orb_false_iff in H2 as [H2 H3].
    destruct r as [|b r]; simpl in *.
    + rewrite N, andb_false_l in H3. simpl in H3. rewrite H3, orb_false_r in H1.
      now rewrite H1.
    + rewrite H2 in *. simpl in *. now apply IH.
Qed.

Lemma block_lookahead (x : ascii) :
  x <> star -> x <> slash ->
  forall st c r post,
    block_good (state_after block_step (fst (block_step st c (r ++ post))) r post) ->
    block_step st c (r ++ String x post) = block_step st c (r ++ post).
Proof.
  intros N1 N2 st c r post G.
  pose proof N1 as E1. pose proof N2 as E2.
  apply Ascii.eqb_neq in E1, E2.
  destruct st; try reflexivity.
  - (* BlockCode *)
    destruct r as [|a r]; simpl in *.
    + rewrite E1, andb_false_r. simpl.
      destruct post as [|b post]; [reflexivity|].
      destruct ((c =? slash)%char && (b =? star)%char && has_close post);
        [|reflexivity].
      simpl in G. destruct G; discriminate.
    + destruct ((c =? slash)%char && (a =? star)%char) eqn:O; simpl in *;
        [|reflexivity].
      destruct (has_close (r ++ String x post)) eqn:H.
      * now rewrite (has_close_insert x r post N1 N2 H).
      * destruct (has_close (r ++ post)) eqn:H'; [|reflexivity].
        simpl in G. rewrite (body_straddle x r post N1 H' H) in G.
        destruct G; discriminate.
  - (* BlockBody *)
    destruct r as [|a r]; [|reflexivity].
    simpl in *. rewrite E2, andb_false_r.
    destruct ((c =? star)%char && starts_with slash post); [|reflexivity].
    simpl in G. destruct G; discriminate.
Qed.

(** What each substitution does with an opening brace added between [pre]
    and [post], by the state of its scanner there. *)
Lemma quoted_insert (q : ascii) (pre post : string) :
  lbrace <> q ->
  if state_after (quoted_step q) false pre post
  then sub_quoted q (pre ++ String lbrace post) = sub_quoted q (pre ++ post)
  else sub_quoted q (pre ++ String lbrace post) =
         kept_prefix (quoted_step q) false pre post
         ++ String lbrace (sub_quoted q post) /\
       sub_quoted q (pre ++ post) =
         kept_prefix (quoted_step q) false pre post ++ sub_quoted q post.
Proof.
  intros N. unfold sub_quoted.
  pose proof (quoted_lookahead q lbrace N) as L.
  pose proof (scan_app (quoted_step q) pre post false) as A.
  pose proof N as E. apply Ascii.eqb_neq in E.
  destruct (state_after (quoted_step q) false pre post) eqn:St.
  - apply (insert_dropped (quoted_step q) lbrace (fun _ => True) L); [exact I|].
    rewrite St. unfold quoted_step. now rewrite E.
  - split; [|exact A].
    rewrite (insert_kept (quoted_step q) lbrace (fun _ => True) L); [|exact I|].
    + now rewrite St.
    + rewrite St. unfold quoted_step. now rewrite E.
Qed.

Lemma line_insert (pre post : string) :
  match state_after line_step LineCode pre post with
  | LineCode =>
      sub_line_comment (pre ++ String lbrace post) =
        kept_prefix line_step LineCode pre post
        ++ String lbrace (sub_line_comment post) /\
      sub_line_comment (pre ++ post) =
        kept_prefix line_step LineCode pre post ++ sub_line_comment post
  | LineBody =>
      sub_line_comment (pre ++ String lbrace post) = sub_line_comment (pre ++ post)
  | LineSlash => True
  end.
Proof.
  unfold sub_line_comment.
  assert (N : lbrace <> slash) by discriminate.
  pose proof (line_lookahead lbrace N) as L.
  pose proof (scan_app line_step pre post LineCode) as A.
  destruct (state_after line_step LineCode pre post) eqn:St; [| exact I |].
  - split; [|exact A].
    rewrite (insert_kept line_step lbrace line_good L); rewrite St;
      [reflexivity | discriminate | reflexivity].
  - apply (insert_dropped line_step lbrace line_good L); rewrite St;
      [discriminate | reflexivity].
Qed.

Lemma block_insert (pre post : string) :
  match state_after block_step BlockCode pre post with
  | BlockCode =>
      sub_block_comment (pre ++ String lbrace post) =
        kept_prefix block_step BlockCode pre post
        ++ String lbrace (sub_block_comment post) /\
      sub_block_comment (pre ++ post) =
        kept_prefix block_step BlockCode pre post ++ sub_block_comment post
  | BlockBody =>
      sub_block_comment (pre ++ String lbrace post) = sub_block_comment (pre ++ post)
  | BlockOpen | BlockClose => True
  end.
Proof.
  unfold sub_block_comment.
  assert (N1 : lbrace <> star) by discriminate.
  assert (N2 : lbrace <> slash) by discriminate.
  pose proof (block_lookahead lbrace N1 N2) as L.
  pose proof (scan_app block_step pre post BlockCode) as A.
  destruct (state_after block_step BlockCode pre post) eqn:St;
    [| exact I | | exact I].
  - split; [|exact A].
    rewrite (insert_kept block_step lbrace block_good L); rewrite St;
      [reflexivity | now left | now destruct post].
  - apply (insert_dropped block_step lbrace block_good L); rewrite St;
      [now right | reflexivity].
Qed.

(** The text that is counted, with the brace added and without it. *)
Lemma clean_insert (pre post : string) :
  match place_of pre post with
  | Outside =>
      exists u v, clean_content (pre ++ post) = u ++ v /\
                  clean_content (pre ++ String lbrace post) = u ++ String lbrace v
  | InDelimiter => True
  | InDoubleQuoted | InSingleQuoted | InLineComment | InBlockComment =>
      clean_content (pre ++ String lbrace post) = clean_content (pre ++ post)
  end.
Proof.
  unfold place_of, clean_content.
  assert (Nd : lbrace <> dquote) by discriminate.
  assert (Ns : lbrace <> squote) by discriminate.
  pose proof (quoted_insert dquote pre post Nd) as Q1.
  destruct (state_after (quoted_step dquote) false pre post);
    [now rewrite Q1|].
  destruct Q1 as [M1 B1]. rewrite M1, B1.
  set (pre1 := kept_prefix (quoted_step dquote) false pre post).
  set (post1 := sub_quoted dquote post).
  pose proof (quoted_insert squote pre1 post1 Ns) as Q2.
  destruct (state_after (quoted_step squote) false pre1 post1);
    [now rewrite Q2|].
  destruct Q2 as [M2 B2]. rewrite M2, B2.
  set (pre2 := kept_prefix (quoted_step squote) false pre1 post1).
  set (post2 := sub_quoted squote post1).
  pose proof (line_insert pre2 post2) as Q3.
  destruct (state_after line_step LineCode pre2 post2);
    [| exact I | now rewrite Q3].
  destruct Q3 as [M3 B3]. rewrite M3, B3.
  set (pre3 := kept_prefix line_step LineCode pre2 post2).
  set (post3 := sub_line_comment post2).
  pose proof (block_insert pre3 post3) as Q4.
  destruct (state_after block_step BlockCode pre3 post3);
    [| exact I | exact Q4 | exact I].
  destruct Q4 as [M4 B4]. rewrite M4, B4. eauto.
Qed.

Lemma count_app (c : ascii) (u v : string) :
  count c (u ++ v) = count c u + count c v.
Proof. induction u as [|a u IH]; simpl; [reflexivity | rewrite IH; lia]. Qed.

(** The verdict on a file with one opening brace added to text that
    passes. *)
Lemma unbalanced_insert (pre post : string) :
  unbalanced (pre ++ post) = false ->
  match place_of pre post with
  | Outside => unbalanced (pre ++ String lbrace post) = true
  | InDelimiter => True
  | InDoubleQuoted | InSingleQuoted | InLineComment | InBlockComment =>
      unbalanced (pre ++ String lbrace post) = false
  end.
Proof.
  intros B. pose proof (clean_insert pre post) as C.
  destruct (place_of pre post); trivial;
    try (unfold unbalanced in *; now rewrite C).
  destruct C as [u [v [C1 C2]]]. unfold unbalanced in *.
  rewrite C1 in B. rewrite C2.
  apply negb_false_iff, Nat.eqb_eq in B.
  apply negb_true_iff, Nat.eqb_neq.
  rewrite !count_app in B |- *.
  change (count lbrace (String lbrace v)) with (S (count lbrace v)).
  change (count rbrace (String lbrace v)) with (count rbrace v).
  lia.
Qed.

(** ** The brace check on a critical file *)

Lemma syntax_check_file_readable
      (fs : node) (project_root file_path content : string) :
  open_read fs (project_root // file_path) = Ok content ->
  syntax_check_file fs project_root file_path =
  if unbalanced content then [UnbalancedBraces file_path] else [].
Proof.
  intros H. unfold syntax_check_file.
  now rewrite (open_read_exists _ _ _ H), H.
Qed.

(** C4, as the code has it.  The text of a critical file passes the count,
    and one opening brace is added to it.  Where the brace stands is decided
    by the four patterns themselves, applied in the order of the code, each
    to what the one before it left.  Outside every match, the file is
    recorded, by name, in the aggregated issue.  Between the quotes of a
    match of a quoted pattern, or inside a match of a comment pattern, the
    turn of the loop for this file appends nothing.  Nothing is said of a
    brace added between the two characters of an opener or of a closer. *)
Theorem added_brace_verdict
        (fs : node) (project_root file_path pre post : string) :
  In file_path critical_files ->
  open_read fs (project_root // file_path) = Ok (pre ++ String lbrace post) ->
  unbalanced (pre ++ post) = false ->
  match place_of pre post with
  | Outside =>
      syntax_check_file fs project_root file_path = [UnbalancedBraces file_path] /\
      exists l, issues (check_syntax fs project_root) = [SyntaxIssues l] /\
                In (UnbalancedBraces file_path) l /\
                (forall pbx_content,
                    open_read fs (pbxproj_path project_root) = Ok pbx_content ->
                    In (SyntaxIssues l) (validate fs project_root))
  | InDelimiter => True
  | InDoubleQuoted | InSingleQuoted | InLineComment | InBlockComment =>
      syntax_check_file fs project_root file_path = []
  end.
Proof.
  intros Hin Hread Hbase.
  pose proof (unbalanced_insert pre post Hbase) as V.
  pose proof (syntax_check_file_readable _ _ _ _ Hread) as F.
  destruct (place_of pre post); trivial; rewrite V in F; trivial.
  split; [exact F|].
  assert (Hl : In (UnbalancedBraces file_path) (syntax_issues_of fs project_root)).
  { unfold syntax_issues_of. apply in_flat_map. exists file_path.
    split; [exact Hin|]. rewrite F. now left. }
  assert (Hc : issues (check_syntax fs project_root) =
               [SyntaxIssues (syntax_issues_of fs project_root)]).
  { rewrite syntax_check_issues.
    destruct (syntax_issues_of fs project_root); [contradiction | reflexivity]. }
  exists (syntax_issues_of fs project_root).
  split; [exact Hc|]. split; [exact Hl|].
  intros pbx_content Hm.
  apply (in_issues_of Syntax).
  rewrite (validate_by_check _ _ _ Syntax Hm), Hc. now left.
Qed.

Lemma added_brace_verdict_witness :
  syntax_check_file
    (fs (Example.with_app_delegate (Example.brace_added Example.in_code)))
    "/home/JJYWave" "App/AppDelegate.swift"
  = [UnbalancedBraces "App/AppDelegate.swift"] /\
  syntax_check_file
    (fs (Example.with_app_delegate (Example.brace_added Example.in_literal)))
    "/home/JJYWave" "App/AppDelegate.swift" = [] /\
  syntax_check_file
    (fs (Example.with_app_delegate (Example.brace_added Example.in_line_comment)))
    "/home/JJYWave" "App/AppDelegate.swift" = [] /\
  syntax_check_file
    (fs (Example.with_app_delegate (Example.brace_added Example.in_block_comment)))
    "/home/JJYWave" "App/AppDelegate.swift" = [].
Proof.
  assert (Hin : In "App/AppDelegate.swift" critical_files) by (simpl; tauto).
  split; [|split; [|split]].
  - exact (proj1 (added_brace_verdict
             (fs (Example.with_app_delegate (Example.brace_added Example.in_code)))
             "/home/JJYWave" "App/AppDelegate.swift"
             (fst Example.in_code) (snd Example.in_code)
             Hin eq_refl eq_refl)).
  - exact (added_brace_verdict
             (fs (Example.with_app_delegate (Example.brace_added Example.in_literal)))
             "/home/JJYWave" "App/AppDelegate.swift"
             (fst Example.in_literal) (snd Example.in_literal)
             Hin eq_refl eq_refl).
  - exact (added_brace_verdict
             (fs (Example.with_app_delegate (Example.brace_added Example.in_line_comment)))
             "/home/JJYWave" "App/AppDelegate.swift"
             (fst Example.in_line_comment) (snd Example.in_line_comment)
             Hin eq_refl eq_refl).
  - exact (added_brace_verdict
             (fs (Example.with_app_delegate (Example.brace_added Example.in_block_comment)))
             "/home/JJYWave" "App/AppDelegate.swift"
             (fst Example.in_block_comment) (snd Example.in_block_comment)
             Hin eq_refl eq_refl).
Defined.

(** C4, as the specification states it, fails.  App/AppDelegate.swift holds
    one block comment and nothing else: slash star, a space, the added
    brace, a space, two slashes, a space, star slash.  The brace stands
    between the opener and the only closer.  Without the brace the project
    passes with status 0; with it the file is reported for unbalanced braces
    and the status is 1.  The third substitution removes the two slashes and
    all that follows them on the line, the closer included, before the
    fourth one looks for block comments, so the brace is counted. *)
Lemma brace_inside_block_comment_reported :
  Example.brace_added Example.before_line_comment_in_block
  = "/*" ++ " " ++ String lbrace (" // " ++ "*/") /\
  has_close (" " ++ String lbrace " // ") = false /\
  clean_content (Example.brace_added Example.before_line_comment_in_block) = "/* { " /\
  validate (fs (Example.with_app_delegate "/*  // */")) "/home/JJYWave" = [] /\
  exit_status (Example.with_app_delegate "/*  // */") = 0 /\
  validate (fs (Example.with_app_delegate
                  (Example.brace_added Example.before_line_comment_in_block)))
           "/home/JJYWave"
  = [SyntaxIssues [UnbalancedBraces "App/AppDelegate.swift"]] /\
  exit_status (Example.with_app_delegate
                 (Example.brace_added Example.before_line_comment_in_block)) = 1.
Proof. repeat split; vm_compute; reflexivity. Qed.


(** * Further properties of the run *)

(** ** The resource files *)

(** X1.  With a readable manifest, the resource check appends at most one
    issue: none when the four resource paths exist, otherwise the one issue
    whose list is exactly the resource paths that do not exist. *)
Theorem resource_files_one_issue (fs : node) (project_root pbx_content : string) :
  open_read fs (pbxproj_path project_root) = Ok pbx_content ->
  issues_of ResourceFiles (validate fs project_root) =
    match missing_under fs project_root required_files with
    | [] => []
    | _ => [MissingResourceFiles (missing_under fs project_root required_files)]
    end /\
  (forall p, In p (missing_under fs project_root required_files) <->
             In p required_files /\ path_exists fs (project_root // p) = false) /\
  List.length (issues_of ResourceFiles (validate fs project_root)) <= 1.
Proof.
  intros H. rewrite (validate_by_check _ _ _ ResourceFiles H), files_issues.
  split; [reflexivity|]. split; [intros p; apply missing_under_In|].
  destruct (missing_under fs project_root required_files); simpl; lia.
Qed.

Lemma resource_files_one_issue_witness :
  issues_of ResourceFiles
    (validate (fs (Example.lacking ["README.md"; "Localizable.xcstrings"]))
              "/home/JJYWave")
  = [MissingResourceFiles ["Localizable.xcstrings"; "README.md"]].
Proof.
  exact (proj1 (resource_files_one_issue
                  (fs (Example.lacking ["README.md"; "Localizable.xcstrings"]))
                  "/home/JJYWave" Example.manifest eq_refl)).
Defined.

(** ** A critical file that cannot be read *)



(** ** One outcome for each check, in the order of the code *)

(** Each of the six checks prints its success line or appends its issue,
    one or the other. *)
Lemma sections_outcome (pbx_content : string) :
  (out (check_sections pbx_content) = [SectionsPresent] /\
   issues (check_sections pbx_content) = []) \/
  (out (check_sections pbx_content) = [] /\
   exists l, issues (check_sections pbx_content) = [MissingSections l]).
Proof.
  unfold check_sections. destruct (missing_sections_of pbx_content); simpl; eauto.
Qed.

Lemma main_count_outcome (swift_files : list string) :
  (out (check_main_count swift_files) = [MainSwiftFiles 17] /\
   issues (check_main_count swift_files) = []) \/
  (out (check_main_count swift_files) = [] /\
   exists n, issues (check_main_count swift_files) = [MainSwiftMismatch 17 n]).
Proof.
  unfold check_main_count, expected_main_swift.
  destruct (Nat.eqb_spec (List.length (main_swift swift_files)) 17) as [E|E];
    simpl; [rewrite E|]; eauto.
Qed.

Lemma test_count_outcome (swift_files : list string) :
  (out (check_test_count swift_files) = [TestSwiftFiles 20] /\
   issues (check_test_count swift_files) = []) \/
  (out (check_test_count swift_files) = [] /\
   exists n, issues (check_test_count swift_files) = [TestSwiftMismatch 20 n]).
Proof.
  unfold check_test_count, expected_test_swift.
  destruct (Nat.eqb_spec (List.length (test_swift swift_files)) 20) as [E|E];
    simpl; [rewrite E|]; eauto.
Qed.

Lemma dirs_outcome (fs : node) (project_root : string) :
  (out (check_dirs fs project_root) = [DirectoriesPresent] /\
   issues (check_dirs fs project_root) = []) \/
  (out (check_dirs fs project_root) = [] /\
   exists l, issues (check_dirs fs project_root) = [MissingDirectories l]).
Proof.
  unfold check_dirs.
  destruct (missing_under fs project_root required_dirs); simpl; eauto.
Qed.

Lemma files_outcome (fs : node) (project_root : string) :
  (out (check_files fs project_root) = [ResourceFilesPresent] /\
   issues (check_files fs project_root) = []) \/
  (out (check_files fs project_root) = [] /\
   exists l, issues (check_files fs project_root) = [MissingResourceFiles l]).
Proof.
  unfold check_files.
  destruct (missing_under fs project_root required_files); simpl; eauto.
Qed.

Lemma syntax_outcome (fs : node) (project_root : string) :
  (out (check_syntax fs project_root) = [SyntaxCheckPassed] /\
   issues (check_syntax fs project_root) = []) \/
  (out (check_syntax fs project_root) = [] /\
   exists l, issues (check_syntax fs project_root) = [SyntaxIssues l]).
Proof.
  unfold check_syntax.
  destruct (syntax_issues_of fs project_root); simpl; eauto.
Qed.

Ltac outcomes fs project_root pbx_content :=
  destruct (sections_outcome pbx_content) as [[O1 I1] | [O1 [? I1]]];
  destruct (main_count_outcome (glob_swift fs project_root)) as [[O2 I2] | [O2 [? I2]]];
  destruct (test_count_outcome (glob_swift fs project_root)) as [[O3 I3] | [O3 [? I3]]];
  destruct (dirs_outcome fs project_root) as [[O4 I4] | [O4 [? I4]]];
  destruct (files_outcome fs project_root) as [[O5 I5] | [O5 [? I5]]];
  destruct (syntax_outcome fs project_root) as [[O6 I6] | [O6 [? I6]]];
  rewrite ?O1, ?O2, ?O3, ?O4, ?O5, ?O6, ?I1, ?I2, ?I3, ?I4, ?I5, ?I6.

(** X3.  Whatever the filesystem, the list returned holds at most one
    issue of each check and the issues stand in the order of the checks in
    the code; so it never holds more than six issues. *)
Theorem issues_in_check_order (fs : node) (project_root : string) :
  StronglySorted lt (map (fun i => check_rank (raised_by i)) (validate fs project_root)) /\
  List.length (validate fs project_root) <= 6.
Proof.
  destruct (validate_cases fs project_root) as [E | [[e E] | [pbx_content E]]].
  - unfold validate. rewrite E. simpl. split; [repeat constructor | lia].
  - unfold validate. rewrite E. simpl. split; [repeat constructor | lia].
  - rewrite (validate_readable _ _ _ E).
    outcomes fs project_root pbx_content; simpl;
      (split; [repeat constructor; lia | lia]).
Qed.

(** X4.  With a readable manifest each of the six checks leaves exactly one
    trace: its success line is printed exactly when the list returned holds
    no issue of that check.  Lines printed and issues returned always add
    up to nine. *)
Theorem each_check_reports_once (fs : node) (project_root pbx_content : string) :
  open_read fs (pbxproj_path project_root) = Ok pbx_content ->
  List.length (out (validate_project fs project_root))
  + List.length (validate fs project_root) = 9 /\
  (In SectionsPresent (out (validate_project fs project_root)) <->
   issues_of Sections (validate fs project_root) = []) /\
  (In (MainSwiftFiles 17) (out (validate_project fs project_root)) <->
   issues_of MainCount (validate fs project_root) = []) /\
  (In (TestSwiftFiles 20) (out (validate_project fs project_root)) <->
   issues_of TestCount (validate fs project_root) = []) /\
  (In DirectoriesPresent (out (validate_project fs project_root)) <->
   issues_of Directories (validate fs project_root) = []) /\
  (In ResourceFilesPresent (out (validate_project fs project_root)) <->
   issues_of ResourceFiles (validate fs project_root) = []) /\
  (In SyntaxCheckPassed (out (validate_project fs project_root)) <->
   issues_of Syntax (validate fs project_root) = []).
Proof.
  intros H.
  rewrite (validate_by_check _ _ _ Sections H), (validate_by_check _ _ _ MainCount H),
    (validate_by_check _ _ _ TestCount H), (validate_by_check _ _ _ Directories H),
    (validate_by_check _ _ _ ResourceFiles H), (validate_by_check _ _ _ Syntax H).
  rewrite (validate_readable _ _ _ H), (output_readable _ _ _ H).
  outcomes fs project_root pbx_content; simpl;
    (split; [reflexivity|]); repeat split; intros; intuition discriminate.
Qed.

Lemma each_check_reports_once_witness :
  List.length (out (validate_project (fs Example.sixteen_main) "/home/JJYWave"))
  + List.length (validate (fs Example.sixteen_main) "/home/JJYWave") = 9.
Proof.
  exact (proj1 (each_check_reports_once
                  (fs Example.sixteen_main) "/home/JJYWave" Example.manifest eq_refl)).
Defined.

(** ** What [main] prints *)

(** The lines [validate_project] can print: the two title lines and the
    success lines, and the two counts only with the expected values. *)
Lemma validate_output_lines (fs : node) (project_root : string) (l : line) :
  In l (out (validate_project fs project_root)) ->
  match l with
  | Title | TitleRule | ProjectFileReadable | SectionsPresent
  | DirectoriesPresent | ResourceFilesPresent | SyntaxCheckPassed => True
  | MainSwiftFiles n => n = 17
  | TestSwiftFiles n => n = 20
  | _ => False
  end.
Proof.
  destruct (validate_cases fs project_root) as [E | [[e E] | [pbx_content E]]].
  - rewrite E. simpl. intros [<- | [<- | []]]; exact I.
  - rewrite E. simpl. intros [<- | [<- | []]]; exact I.
  - rewrite (output_readable _ _ _ E).
    outcomes fs project_root pbx_content; simpl; intros Hl;
      repeat (destruct Hl as [<- | Hl]; [simpl; trivial|]); contradiction.
Qed.

Lemma listed_issues_app (a b : list line) :
  listed_issues (a ++ b) = (listed_issues a ++ listed_issues b)%list.
Proof. apply flat_map_app. Qed.

Lemma listed_issues_lines (l : list issue) :
  listed_issues (map IssueLine l) = l.
Proof. induction l as [|i l IH]; simpl; [reflexivity | now rewrite IH]. Qed.

Lemma validate_lists_nothing (fs : node) (project_root : string) :
  listed_issues (out (validate_project fs project_root)) = [].
Proof.
  pose proof (validate_output_lines fs project_root) as H.
  induction (out (validate_project fs project_root)) as [|l r IH]; [reflexivity|].
  simpl. rewrite IH by (intros x Hx; apply H; now right).
  specialize (H l (or_introl eq_refl)). now destruct l.
Qed.

(** X5.  The summary of [main] lists the issues that [validate_project]
    returned, all of them, once each and in the same order; nothing is
    listed when the run stops at the directory test. *)
Theorem main_lists_every_issue (w : world) :
  listed_issues (fst (main w)) =
  if path_exists (fs w) (cwd w // "JJYWave.xcodeproj")
  then validate (fs w) (cwd w)
  else [].
Proof.
  unfold main, validate.
  destruct (path_exists (fs w) (cwd w // "JJYWave.xcodeproj")); simpl;
    [|reflexivity].
  destruct (issues (validate_project (fs w) (cwd w))) as [|i l] eqn:E; simpl.
  - now rewrite listed_issues_app, validate_lists_nothing.
  - rewrite !listed_issues_app, validate_lists_nothing.
    change (IssueLine i :: map IssueLine l) with (map IssueLine (i :: l)).
    simpl listed_issues at 1.
    rewrite !listed_issues_app, listed_issues_lines. simpl.
    now rewrite app_nil_r.
Qed.

(** X6.  [main] ends in exactly one of three ways, and the ending tells
    the exit status: the pass banner is printed exactly when the status is
    0, the fail banner exactly when [validate_project] ran and returned an
    issue, and the directory message exactly when JJYWave.xcodeproj is
    absent, in which case these two lines are all that is printed. *)
Theorem ending_agrees_with_status (w : world) :
  (In ValidationPassed (fst (main w)) <-> exit_status w = 0) /\
  (In ValidationFailed (fst (main w)) <->
   path_exists (fs w) (cwd w // "JJYWave.xcodeproj") = true /\
   validate (fs w) (cwd w) <> []) /\
  (In NotInProjectDirectory (fst (main w)) <->
   path_exists (fs w) (cwd w // "JJYWave.xcodeproj") = false) /\
  (path_exists (fs w) (cwd w // "JJYWave.xcodeproj") = false ->
   fst (main w) = [NotInProjectDirectory; PleaseRunFromRoot]).
Proof.
  pose proof (validate_output_lines (fs w) (cwd w)) as V.
  assert (N : forall x l, In x (map IssueLine l) -> exists i, x = IssueLine i).
  { intros x l H. apply in_map_iff in H as [i [H _]]. now exists i. }
  unfold exit_status, main, validate.
  destruct (path_exists (fs w) (cwd w // "JJYWave.xcodeproj")); simpl.
  - destruct (issues (validate_project (fs w) (cwd w))) as [|i l] eqn:E; simpl.
    + split; [|split; [|split]].
      * split; [reflexivity|]. intros _. apply in_or_app. right. simpl. tauto.
      * split; [|intros [_ H]; now elim H].
        intros H. apply in_app_or in H as [H | H].
        -- apply V in H. contradiction.
        -- simpl in H. intuition discriminate.
      * split; [|discriminate].
        intros H. apply in_app_or in H as [H | H].
        -- apply V in H. contradiction.
        -- simpl in H. intuition discriminate.
      * discriminate.
    + split; [|split; [|split]].
      * split; [|discriminate].
        intros H. apply in_app_or in H as [H | H].
        -- apply V in H. contradiction.
        -- simpl in H. destruct H as [H | [H | [H | [H | H]]]]; try discriminate.
           apply in_app_or in H as [H | H].
           ++ apply N in H as [j H]. discriminate.
           ++ simpl in H. intuition discriminate.
      * split; [intros _; split; [reflexivity | discriminate]|].
        intros _. apply in_or_app. right. simpl. tauto.
      * split; [|discriminate].
        intros H. apply in_app_or in H as [H | H].
        -- apply V in H. contradiction.
        -- simpl in H. destruct H as [H | [H | [H | [H | H]]]]; try discriminate.
           apply in_app_or in H as [H | H].
           ++ apply N in H as [j H]. discriminate.
           ++ simpl in H. intuition discriminate.
      * discriminate.
  - split; [|split; [|split]].
    + split; [|discriminate]. simpl. intuition discriminate.
    + split; [|intros [H _]; discriminate]. simpl. intuition discriminate.
    + split; [reflexivity|]. intros _. simpl. tauto.
    + reflexivity.
Qed.

Lemma ending_agrees_with_status_witness :
  fst (main Example.elsewhere) = [NotInProjectDirectory; PleaseRunFromRoot].
Proof.
  apply (proj2 (proj2 (proj2 (ending_agrees_with_status Example.elsewhere)))).
  vm_compute. reflexivity.
Defined.

(** ** When a project passes *)

Lemma filter_nil_iff {A : Type} (f : A -> bool) (l : list A) :
  filter f l = [] <-> forall x, In x l -> f x = false.
Proof.
  induction l as [|a l IH]; simpl.
  - split; [intros _ x [] | reflexivity].
  - destruct (f a) eqn:E.
    + split; [discriminate|]. intros H. rewrite (H a (or_introl eq_refl)) in E.
      discriminate.
    + rewrite IH. split.
      * intros H x [<- | Hx]; [exact E | now apply H].
      * intros H x Hx. apply H. now right.
Qed.

Lemma flat_map_nil_iff {A B : Type} (f : A -> list B) (l : list A) :
  flat_map f l = [] <-> forall x, In x l -> f x = [].
Proof.
  induction l as [|a l IH]; simpl.
  - split; [intros _ x [] | reflexivity].
  - split.
    + intros H. apply app_eq_nil in H as [H1 H2].
      intros x [<- | Hx]; [exact H1 | now apply IH].
    + intros H. rewrite (H a (or_introl eq_refl)). simpl.
      apply IH. intros x Hx. apply H. now right.
Qed.

Lemma syntax_check_file_nil_iff (fs : node) (project_root file_path : string) :
  syntax_check_file fs project_root file_path = [] <->
  (path_exists fs (project_root // file_path) = true ->
   exists content, open_read fs (project_root // file_path) = Ok content /\
                   unbalanced content = false).
Proof.
  unfold syntax_check_file.
  destruct (path_exists fs (project_root // file_path)).
  - destruct (open_read fs (project_root // file_path)) as [content|e].
    + destruct (unbalanced content) eqn:U.
      * split; [discriminate|]. intros H.
        destruct (H eq_refl) as [c [Hc Hu]]. congruence.
      * split; [|reflexivity]. intros _ _. now exists content.
    + split; [discriminate|]. intros H.
      destruct (H eq_refl) as [c [Hc _]]. discriminate.
  - split; [discriminate | reflexivity].
Qed.

(** X7.  The list returned is empty exactly when everything the code looks
    at is in order: the manifest reads and contains the four markers, there
    are 17 main and 20 test Swift files, the eight directories and the four
    resource paths exist, and each critical file that exists reads and has
    as many opening as closing braces left once cleaned. *)
Theorem validate_empty_iff (fs : node) (project_root : string) :
  validate fs project_root = [] <->
  exists pbx_content,
    open_read fs (pbxproj_path project_root) = Ok pbx_content /\
    (forall section, In section required_sections ->
                     contains section pbx_content = true) /\
    List.length (main_swift (glob_swift fs project_root)) = 17 /\
    List.length (test_swift (glob_swift fs project_root)) = 20 /\
    (forall d, In d required_dirs -> path_exists fs (project_root // d) = true) /\
    (forall f, In f required_files -> path_exists fs (project_root // f) = true) /\
    (forall f, In f critical_files ->
               path_exists fs (project_root // f) = true ->
               exists content, open_read fs (project_root // f) = Ok content /\
                               unbalanced content = false).
Proof.
  assert (S : forall c, missing_sections_of c = [] <->
                        forall s, In s required_sections -> contains s c = true).
  { intros c. unfold missing_sections_of. rewrite filter_nil_iff.
    split; intros H s Hs; specialize (H s Hs);
      [now apply negb_false_iff in H | now apply negb_false_iff]. }
  assert (M : forall paths, missing_under fs project_root paths = [] <->
                            forall p, In p paths ->
                                      path_exists fs (project_root // p) = true).
  { intros paths. unfold missing_under. rewrite filter_nil_iff.
    split; intros H p Hp; specialize (H p Hp);
      [now apply negb_false_iff in H | now apply negb_false_iff]. }
  assert (Y : syntax_issues_of fs project_root = [] <->
              forall f, In f critical_files ->
                        path_exists fs (project_root // f) = true ->
                        exists content,
                          open_read fs (project_root // f) = Ok content /\
                          unbalanced content = false).
  { unfold syntax_issues_of. rewrite flat_map_nil_iff.
    split; intros H f Hf; apply syntax_check_file_nil_iff; now apply H. }
  split.
  - intros H.
    destruct (validate_cases fs project_root) as [E | [[e E] | [pbx_content E]]].
    + unfold validate in H. rewrite E in H. discriminate.
    + unfold validate in H. rewrite E in H. discriminate.
    + exists pbx_content. split; [exact E|].
      rewrite (validate_readable _ _ _ E) in H.
      rewrite sections_issues, main_count_issues, test_count_issues,
        dirs_issues, files_issues, syntax_check_issues in H.
      destruct (missing_sections_of pbx_content) eqn:E1; [|discriminate].
      destruct (Nat.eqb_spec (List.length (main_swift (glob_swift fs project_root))) 17)
        as [E2|E2]; [|discriminate].
      destruct (Nat.eqb_spec (List.length (test_swift (glob_swift fs project_root))) 20)
        as [E3|E3]; [|discriminate].
      destruct (missing_under fs project_root required_dirs) eqn:E4; [|discriminate].
      destruct (missing_under fs project_root required_files) eqn:E5; [|discriminate].
      destruct (syntax_issues_of fs project_root) eqn:E6; [|discriminate].
      repeat split; trivial.
      * now apply S.
      * now apply M.
      * now apply M.
      * now apply Y.
  - intros [pbx_content [E [H1 [H2 [H3 [H4 [H5 H6]]]]]]].
    rewrite (validate_readable _ _ _ E).
    rewrite sections_issues, main_count_issues, test_count_issues,
      dirs_issues, files_issues, syntax_check_issues.
    apply S in H1. apply M in H4, H5. apply Y in H6.
    rewrite H1, H2, H3, H4, H5, H6. reflexivity.
Qed.

(** ** What cleaning can and cannot do *)




Lemma scan_quoted_plain (q : ascii) (s : string) :
  occurs q s = false -> sub_quoted q s = s.
Proof.
  unfold sub_quoted. induction s as [|a r IH]; simpl; [reflexivity|].
  intros H. apply orb_false_iff in H as [H1 H2].
  rewrite H1. simpl. now rewrite IH.
Qed.

Lemma scan_line_plain (s : string) :
  occurs slash s = false -> sub_line_comment s = s.
Proof.
  unfold sub_line_comment. induction s as [|a r IH]; simpl; [reflexivity|].
  intros H. apply orb_false_iff in H as [H1 H2].
  rewrite H1. simpl. now rewrite IH.
Qed.

Lemma scan_block_plain (s : string) :
  occurs slash s = false -> sub_block_comment s = s.
Proof.
  unfold sub_block_comment. induction s as [|a r IH]; simpl; [reflexivity|].
  intros H. apply orb_false_iff in H as [H1 H2].
  rewrite H1. simpl. destruct r; now rewrite IH.
Qed.

(** X9.  Text without a quote of either kind and without a slash is
    counted as it is: cleaning leaves it unchanged, so the file is reported
    exactly when its numbers of opening and closing braces differ.  The
    order and the nesting of the braces play no part. *)
Theorem plain_text_counted_as_is (content : string) :
  occurs dquote content = false ->
  occurs squote content = false ->
  occurs slash content = false ->
  clean_content content = content /\
  unbalanced content = negb (Nat.eqb (count lbrace content) (count rbrace content)).
Proof.
  intros Hd Hs Hl.
  assert (E : clean_content content = content).
  { unfold clean_content.
    now rewrite (scan_quoted_plain dquote _ Hd), (scan_quoted_plain squote _ Hs),
      (scan_line_plain _ Hl), (scan_block_plain _ Hl). }
  split; [exact E|]. unfold unbalanced. now rewrite E.
Qed.

Lemma plain_text_counted_as_is_witness :
  unbalanced "} func f() { } {" = false.
Proof.
  rewrite (proj2 (plain_text_counted_as_is "} func f() { } {" eq_refl eq_refl eq_refl)).
  vm_compute. reflexivity.
Defined.

(** ** Paths that name a test directory *)

Lemma prefix_app (sub a b : string) :
  String.prefix sub a = true -> String.prefix sub (a ++ b) = true.
Proof.
  revert sub. induction a as [|x a IH]; intros sub; destruct sub as [|y sub];
    simpl.
  - intros _. now destruct b.
  - discriminate.
  - reflexivity.
  - destruct (ascii_dec y x); [apply IH | discriminate].
Qed.

Lemma contains_app_l (sub a b : string) :
  contains sub a = true -> contains sub (a ++ b) = true.
Proof.
  induction a as [|x a IH].
  - simpl. rewrite orb_false_r. intros H.
    destruct sub; [now destruct b | discriminate].
  - change (contains sub (String x a))
      with (String.prefix sub (String x a) || contains sub a).
    change (contains sub (String x a ++ b))
      with (String.prefix sub (String x a ++ b) || contains sub (a ++ b)).
    intros H. apply orb_true_iff in H as [H | H].
    + now rewrite (prefix_app _ _ b H).
    + rewrite (IH H). apply orb_true_r.
Qed.

Lemma contains_app_r (sub a b : string) :
  contains sub b = true -> contains sub (a ++ b) = true.
Proof.
  intros H. induction a as [|x a IH]; [exact H|].
  change (contains sub (String x a ++ b))
    with (String.prefix sub (String x a ++ b) || contains sub (a ++ b)).
  rewrite IH. apply orb_true_r.
Qed.

Lemma joinpath_prefix (p q : string) : exists s, p // q = p ++ s.
Proof. unfold joinpath. destruct (ends_with "/" p); eauto. Qed.

(** Every path the glob yields starts with the directory searched. *)
Lemma glob_node_prefix (n : node) :
  forall dir f, In f (glob_node dir n) -> exists s, f = dir ++ s.
Proof.
  revert n. fix IH 1. intros [t | m | entries] dir f; simpl; try contradiction.
  induction entries as [|[name child] rest IHl]; simpl; [contradiction|].
  rewrite !in_app_iff. intros [[H | H] | H].
  - destruct (ends_with ".swift" name); [|contradiction].
    destruct H as [<- | []]. apply joinpath_prefix.
  - destruct (IH child _ _ H) as [s ->].
    destruct (joinpath_prefix dir name) as [s' ->].
    exists (s' ++ s). apply append_assoc.
  - now apply IHl.
Qed.

(** X10.  The two counts look at the whole path of a file, the working
    directory included.  Run from a directory whose own path contains a
    test marker, every Swift file counts as a test file and none as a main
    file, so the run never passes there: the list returned is not empty and
    the exit status is 1. *)
Theorem working_directory_named_like_tests (w : world) :
  is_test_path (cwd w) = true ->
  main_swift (glob_swift (fs w) (cwd w)) = [] /\
  test_swift (glob_swift (fs w) (cwd w)) = glob_swift (fs w) (cwd w) /\
  validate (fs w) (cwd w) <> [] /\
  exit_status w = 1.
Proof.
  intros T.
  assert (A : forall f, In f (glob_swift (fs w) (cwd w)) -> is_test_path f = true).
  { intros f Hf. unfold glob_swift in Hf.
    destruct (resolve (fs w) (cwd w)) as [n|]; [|contradiction].
    destruct (glob_node_prefix n _ _ Hf) as [s ->].
    unfold is_test_path in *. apply orb_true_iff in T as [T | T].
    - now rewrite (contains_app_l _ _ s T).
    - rewrite (contains_app_l _ _ s T). apply orb_true_r. }
  assert (M : main_swift (glob_swift (fs w) (cwd w)) = []).
  { unfold main_swift. apply filter_nil_iff. intros f Hf.
    unfold is_main_path. specialize (A f Hf). unfold is_test_path in A.
    rewrite <- negb_orb, A. reflexivity. }
  assert (V : validate (fs w) (cwd w) <> []).
  { destruct (validate_cases (fs w) (cwd w)) as [E | [[e E] | [pbx_content E]]].
    - unfold validate. rewrite E. discriminate.
    - unfold validate. rewrite E. discriminate.
    - intros H.
      pose proof (validate_by_check _ _ _ MainCount E) as C.
      rewrite H, main_count_issues, M in C. discriminate. }
  split; [exact M|]. split; [|split; [exact V|]].
  - unfold test_swift.
    assert (F : forall l, (forall f, In f l -> is_test_path f = true) ->
                          filter is_test_path l = l).
    { induction l as [|f l IHl]; intros Hl; [reflexivity|].
      simpl. rewrite (Hl f (or_introl eq_refl)). f_equal.
      apply IHl. intros g Hg. apply Hl. now right. }
    now apply F.
  - unfold exit_status, main.
    destruct (path_exists (fs w) (cwd w // "JJYWave.xcodeproj")); [|reflexivity].
    simpl. unfold validate in V.
    destruct (issues (validate_project (fs w) (cwd w))); [now elim V | reflexivity].
Qed.

Lemma working_directory_named_like_tests_witness :
  validate (fs Example.under_tests) "/srv/Tests/JJYWave"
  = [MainSwiftMismatch 17 0; TestSwiftMismatch 20 37] /\
  exit_status Example.under_tests = 1.
Proof.
  split.
  - vm_compute. reflexivity.
  - apply (working_directory_named_like_tests Example.under_tests).
    vm_compute. reflexivity.
Defined.

(** ** Markers are looked for anywhere in the manifest *)

(** X11.  The section check only asks whether each marker occurs.  Text
    put before or after a manifest never makes a marker missing: the markers
    missing from the longer text are among those missing from the shorter
    one, and a manifest that passes the check still passes. *)
Theorem sections_found_anywhere (before pbx_content after : string) :
  (forall section,
      In section (missing_sections_of (before ++ pbx_content ++ after)) ->
      In section (missing_sections_of pbx_content)) /\
  (check_sections pbx_content = print SectionsPresent ->
   check_sections (before ++ pbx_content ++ after) = print SectionsPresent).
Proof.
  assert (H : forall section,
             In section (missing_sections_of (before ++ pbx_content ++ after)) ->
             In section (missing_sections_of pbx_content)).
  { intros section. unfold missing_sections_of. rewrite !filter_In.
    intros [H1 H2]. split; [exact H1|].
    destruct (contains section pbx_content) eqn:C; [|reflexivity].
    rewrite (contains_app_r _ before _ (contains_app_l _ _ after C)) in H2.
    discriminate. }
  split; [exact H|].
  unfold check_sections.
  destruct (missing_sections_of pbx_content) eqn:E; [|discriminate].
  intros _.
  destruct (missing_sections_of (before ++ pbx_content ++ after)) as [|s l] eqn:E';
    [reflexivity|].
  elim (H s). now left.
Qed.

Lemma sections_found_anywhere_witness :
  check_sections ("// !$*UTF8*$!" ++ Example.manifest ++ "rootObject = 0;")
  = print SectionsPresent.
Proof.
  apply (proj2 (sections_found_anywhere
                  "// !$*UTF8*$!" Example.manifest "rootObject = 0;")).
  vm_compute. reflexivity.
Defined.

(** ** The entries of the aggregated syntax issue *)

(** X12.  The aggregated list has at most one entry for each critical file
    and no other entry, in the order of the three files: the names of its
    entries are the critical files whose turn of the loop appended
    something. *)
Theorem syntax_entries_follow_critical_files (fs : node) (project_root : string) :
  map syntax_issue_file (syntax_issues_of fs project_root) =
  filter (fun f => match syntax_check_file fs project_root f with
                   | [] => false
                   | _ => true
                   end) critical_files /\
  List.length (syntax_issues_of fs project_root) <= 3.
Proof.
  assert (O : forall f, syntax_check_file fs project_root f = [] \/
                        exists i, syntax_check_file fs project_root f = [i] /\
                                  syntax_issue_file i = f).
  { intros f. unfold syntax_check_file.
    destruct (path_exists fs (project_root // f)); [|now left].
    destruct (open_read fs (project_root // f)) as [content|e].
    - destruct (unbalanced content); [right | now left]. eauto.
    - right. eauto. }
  unfold syntax_issues_of.
  assert (G : forall l,
             map syntax_issue_file (flat_map (syntax_check_file fs project_root) l) =
             filter (fun f => match syntax_check_file fs project_root f with
                              | [] => false
                              | _ => true
                              end) l /\
             List.length (flat_map (syntax_check_file fs project_root) l)
             <= List.length l).
  { induction l as [|f l [IH1 IH2]]; simpl; [split; [reflexivity | lia]|].
    rewrite map_app, length_app, IH1.
    destruct (O f) as [E | [i [E N]]]; rewrite E; simpl.
    - split; [reflexivity | lia].
    - rewrite N. split; [reflexivity | lia]. }
  destruct (G critical_files) as [G1 G2]. split; [exact G1 | exact G2].
Qed.

(** ** Any character that the patterns do not mention, added to the text *)

Lemma quoted_insert_char (q x : ascii) (pre post : string) :
  x <> q ->
  if state_after (quoted_step q) false pre post
  then sub_quoted q (pre ++ String x post) = sub_quoted q (pre ++ post)
  else sub_quoted q (pre ++ String x post) =
         kept_prefix (quoted_step q) false pre post ++ String x (sub_quoted q post) /\
       sub_quoted q (pre ++ post) =
         kept_prefix (quoted_step q) false pre post ++ sub_quoted q post.
Proof.
  intros N. unfold sub_quoted.
  pose proof (quoted_lookahead q x N) as L.
  pose proof (scan_app (quoted_step q) pre post false) as A.
  pose proof N as E. apply Ascii.eqb_neq in E.
  destruct (state_after (quoted_step q) false pre post) eqn:St.
  - apply (insert_dropped (quoted_step q) x (fun _ => True) L); [exact I|].
    rewrite St. unfold quoted_step. now rewrite E.
  - split; [|exact A].
    rewrite (insert_kept (quoted_step q) x (fun _ => True) L); [|exact I|].
    + now rewrite St.
    + rewrite St. unfold quoted_step. now rewrite E.
Qed.

Lemma line_insert_char (x : ascii) (pre post : string) :
  x <> slash -> x <> newline ->
  match state_after line_step LineCode pre post with
  | LineCode =>
      sub_line_comment (pre ++ String x post) =
        kept_prefix line_step LineCode pre post ++ String x (sub_line_comment post) /\
      sub_line_comment (pre ++ post) =
        kept_prefix line_step LineCode pre post ++ sub_line_comment post
  | LineBody =>
      sub_line_comment (pre ++ String x post) = sub_line_comment (pre ++ post)
  | LineSlash => True
  end.
Proof.
  intros N1 N2. unfold sub_line_comment.
  pose proof (line_lookahead x N1) as L.
  pose proof (scan_app line_step pre post LineCode) as A.
  apply Ascii.eqb_neq in N1, N2.
  destruct (state_after line_step LineCode pre post) eqn:St; [| exact I |].
  - split; [|exact A].
    rewrite (insert_kept line_step x line_good L); rewrite St;
      [reflexivity | discriminate | simpl; now rewrite N1].
  - apply (insert_dropped line_step x line_good L); rewrite St;
      [discriminate | simpl; now rewrite N2].
Qed.

Lemma block_insert_char (x : ascii) (pre post : string) :
  x <> star -> x <> slash ->
  match state_after block_step BlockCode pre post with
  | BlockCode =>
      sub_block_comment (pre ++ String x post) =
        kept_prefix block_step BlockCode pre post ++ String x (sub_block_comment post) /\
      sub_block_comment (pre ++ post) =
        kept_prefix block_step BlockCode pre post ++ sub_block_comment post
  | BlockBody =>
      sub_block_comment (pre ++ String x post) = sub_block_comment (pre ++ post)
  | BlockOpen | BlockClose => True
  end.
Proof.
  intros N1 N2. unfold sub_block_comment.
  pose proof (block_lookahead x N1 N2) as L.
  pose proof (scan_app block_step pre post BlockCode) as A.
  apply Ascii.eqb_neq in N1, N2.
  destruct (state_after block_step BlockCode pre post) eqn:St;
    [| exact I | | exact I].
  - split; [|exact A].
    rewrite (insert_kept block_step x block_good L); rewrite St;
      [reflexivity | now left | simpl; rewrite N2; now destruct post].
  - apply (insert_dropped block_step x block_good L); rewrite St;
      [now right | simpl; now rewrite N1].
Qed.

(** The cleaned text with [x] added and without it. *)
Lemma clean_insert_char (x : ascii) (pre post : string) :
  inert x ->
  match place_of pre post with
  | Outside =>
      exists u v, clean_content (pre ++ post) = u ++ v /\
                  clean_content (pre ++ String x post) = u ++ String x v
  | InDelimiter => True
  | InDoubleQuoted | InSingleQuoted | InLineComment | InBlockComment =>
      clean_content (pre ++ String x post) = clean_content (pre ++ post)
  end.
Proof.
  intros (Nd & Ns & Nsl & Nst & Nn).
  unfold place_of, clean_content.
  pose proof (quoted_insert_char dquote x pre post Nd) as Q1.
  destruct (state_after (quoted_step dquote) false pre post);
    [now rewrite Q1|].
  destruct Q1 as [M1 B1]. rewrite M1, B1.
  set (pre1 := kept_prefix (quoted_step dquote) false pre post).
  set (post1 := sub_quoted dquote post).
  pose proof (quoted_insert_char squote x pre1 post1 Ns) as Q2.
  destruct (state_after (quoted_step squote) false pre1 post1);
    [now rewrite Q2|].
  destruct Q2 as [M2 B2]. rewrite M2, B2.
  set (pre2 := kept_prefix (quoted_step squote) false pre1 post1).
  set (post2 := sub_quoted squote post1).
  pose proof (line_insert_char x pre2 post2 Nsl Nn) as Q3.
  destruct (state_after line_step LineCode pre2 post2);
    [| exact I | now rewrite Q3].
  destruct Q3 as [M3 B3]. rewrite M3, B3.
  set (pre3 := kept_prefix line_step LineCode pre2 post2).
  set (post3 := sub_line_comment post2).
  pose proof (block_insert_char x pre3 post3 Nst Nsl) as Q4.
  destruct (state_after block_step BlockCode pre3 post3);
    [| exact I | exact Q4 | exact I].
  destruct Q4 as [M4 B4]. rewrite M4, B4. eauto.
Qed.

Lemma rbrace_inert : inert rbrace.
Proof. repeat split; discriminate. Qed.

(** X13.  A closing brace is treated like an opening one.  Added to the
    text of a critical file that passes the count, at a place outside every
    match of the four patterns, it makes the loop record the file for
    unbalanced braces; added between the quotes of a quoted match or inside
    a comment match, it leaves the file without an entry. *)
Theorem added_closing_brace_verdict
        (fs : node) (project_root file_path pre post : string) :
  In file_path critical_files ->
  open_read fs (project_root // file_path) = Ok (pre ++ String rbrace post) ->
  unbalanced (pre ++ post) = false ->
  match place_of pre post with
  | Outside =>
      syntax_check_file fs project_root file_path = [UnbalancedBraces file_path] /\
      In (UnbalancedBraces file_path) (syntax_issues_of fs project_root)
  | InDelimiter => True
  | InDoubleQuoted | InSingleQuoted | InLineComment | InBlockComment =>
      syntax_check_file fs project_root file_path = []
  end.
Proof.
  intros Hin Hread Hbase.
  pose proof (clean_insert_char rbrace pre post rbrace_inert) as C.
  pose proof (syntax_check_file_readable _ _ _ _ Hread) as F.
  destruct (place_of pre post); trivial;
    try (assert (V : unbalanced (pre ++ String rbrace post) = false)
           by (unfold unbalanced in *; now rewrite C);
         now rewrite V in F).
  destruct C as [u [v [C1 C2]]].
  assert (V : unbalanced (pre ++ String rbrace post) = true).
  { unfold unbalanced in *. rewrite C1 in Hbase. rewrite C2.
    apply negb_false_iff, Nat.eqb_eq in Hbase.
    apply negb_true_iff, Nat.eqb_neq.
    rewrite !count_app in Hbase |- *.
    change (count lbrace (String rbrace v)) with (count lbrace v).
    change (count rbrace (String rbrace v)) with (S (count rbrace v)).
    lia. }
  rewrite V in F. split; [exact F|].
  unfold syntax_issues_of. apply in_flat_map. exists file_path.
  split; [exact Hin|]. rewrite F. now left.
Qed.

Lemma added_closing_brace_verdict_witness :
  syntax_check_file
    (fs (Example.with_app_delegate
           (fst Example.in_code ++ String rbrace (snd Example.in_code))))
    "/home/JJYWave" "App/AppDelegate.swift"
  = [UnbalancedBraces "App/AppDelegate.swift"] /\
  syntax_check_file
    (fs (Example.with_app_delegate
           (fst Example.in_block_comment ++ String rbrace (snd Example.in_block_comment))))
    "/home/JJYWave" "App/AppDelegate.swift" = [].
Proof.
  assert (Hin : In "App/AppDelegate.swift" critical_files) by (simpl; tauto).
  split.
  - exact (proj1 (added_closing_brace_verdict
             (fs (Example.with_app_delegate
                    (fst Example.in_code ++ String rbrace (snd Example.in_code))))
             "/home/JJYWave" "App/AppDelegate.swift"
             (fst Example.in_code) (snd Example.in_code)
             Hin eq_refl eq_refl)).
  - exact (added_closing_brace_verdict
             (fs (Example.with_app_delegate
                    (fst Example.in_block_comment
                     ++ String rbrace (snd Example.in_block_comment))))
             "/home/JJYWave" "App/AppDelegate.swift"
             (fst Example.in_block_comment) (snd Example.in_block_comment)
             Hin eq_refl eq_refl).
Defined.

(** X14.  The verdict depends on braces, quotes, slashes, stars and
    newlines only.  A character that is none of these, added anywhere but
    between the two characters of an opener or of a closer, never changes
    whether the text counts as unbalanced. *)
Theorem ordinary_character_keeps_verdict (x : ascii) (pre post : string) :
  inert x -> x <> lbrace -> x <> rbrace ->
  place_of pre post <> InDelimiter ->
  unbalanced (pre ++ String x post) = unbalanced (pre ++ post).
Proof.
  intros Hx Nl Nr Hp.
  pose proof (clean_insert_char x pre post Hx) as C.
  apply Ascii.eqb_neq in Nl, Nr.
  destruct (place_of pre post); try (unfold unbalanced; now rewrite C);
    [|now elim Hp].
  destruct C as [u [v [C1 C2]]]. unfold unbalanced. rewrite C1, C2.
  rewrite !count_app. simpl. now rewrite Nl, Nr.
Qed.

Lemma ordinary_character_keeps_verdict_witness :
  unbalanced (fst Example.in_code ++ String "x" (snd Example.in_code)) = false.
Proof.
  rewrite (ordinary_character_keeps_verdict
             "x" (fst Example.in_code) (snd Example.in_code)).
  - vm_compute. reflexivity.
  - repeat split; discriminate.
  - discriminate.
  - discriminate.
  - vm_compute. discriminate.
Defined.

(** ** The bundle that is not a directory *)

(** X15.  [main] only asks whether JJYWave.xcodeproj exists.  When
    something other than a directory stands there, the run goes on into
    [validate_project], which finds no manifest below it: the one issue of
    the missing manifest is listed under the fail banner and the status
    is 1. *)
Theorem bundle_not_a_directory (w : world) :
  path_exists (fs w) (cwd w // "JJYWave.xcodeproj") = true ->
  (forall entries,
      resolve (fs w) (cwd w // "JJYWave.xcodeproj") <> Some (Dir entries)) ->
  main w = ([Title; TitleRule; SummaryRule; ValidationFailed; IssuesDetected;
             IssueLine PbxprojMissing; ConsiderComparing], 1).
Proof.
  intros Hex Hnd.
  assert (M : path_exists (fs w) (pbxproj_path (cwd w)) = false).
  { unfold pbxproj_path, path_exists, resolve in *.
    rewrite components_join, walk_app.
    destruct (walk (fs w) (components (cwd w // "JJYWave.xcodeproj")))
      as [[t | m | entries] |]; try reflexivity.
    now elim (Hnd entries). }
  unfold main. rewrite Hex. simpl.
  now rewrite (validate_missing _ _ M).
Qed.

Lemma bundle_not_a_directory_witness :
  exit_status Example.bundle_is_a_file = 1.
Proof.
  unfold exit_status.
  rewrite (bundle_not_a_directory Example.bundle_is_a_file).
  - reflexivity.
  - vm_compute. reflexivity.
  - intros entries. vm_compute. discriminate.
Defined.

(** ** Which files the glob yields and how it classifies them *)






Lemma ends_with_slash_app (a b : string) :
  b <> "" -> ends_with "/" (a ++ b) = ends_with "/" b.
Proof.
  intros Hb. induction a as [|x a IH]; [reflexivity|].
  change (ends_with "/" (String x a ++ b))
    with ((String x (a ++ b) =? "/") || ends_with "/" (a ++ b)).
  rewrite IH.
  assert (E : (String x (a ++ b) =? "/") = false).
  { apply String.eqb_neq. intros H. injection H as _ H.
    destruct a; simpl in H; [now apply Hb | discriminate]. }
  now rewrite E.
Qed.

(** Below a directory whose path does not end with the separator, every
    path the glob yields continues with a separator. *)
Lemma glob_node_below (n : node) (dir f : string) :
  ends_with "/" dir = false ->
  In f (glob_node dir n) -> exists s, f = dir ++ "/" ++ s.
Proof.
  intros Hd. destruct n as [t | m | entries]; simpl; try contradiction.
  assert (J : forall name, dir // name = dir ++ "/" ++ name)
    by (intros name; unfold joinpath; now rewrite Hd).
  induction entries as [|[name child] rest IHl]; simpl; [contradiction|].
  rewrite !in_app_iff. intros [[H | H] | H].
  - destruct (ends_with ".swift" name); [|contradiction].
    destruct H as [<- | []]. exists name. apply J.
  - destruct (glob_node_prefix child _ _ H) as [s ->].
    exists (name ++ s). rewrite J. now rewrite !append_assoc.
  - now apply IHl.
Qed.

(** What the glob yields in a directory reached from [n] is among what it
    yields in [n]. *)
Lemma glob_node_walk (p : list string) :
  forall n dir n' f,
    walk n p = Some n' ->
    In f (glob_node (fold_left joinpath p dir) n') ->
    In f (glob_node dir n).
Proof.
  induction p as [|c p IH]; intros n dir n' f; simpl.
  - intros [= ->]. trivial.
  - destruct n as [t | m | entries]; try discriminate.
    destruct (assoc c entries) as [child|] eqn:A; [|discriminate].
    intros W H. pose proof (IH child (dir // c) n' f W H) as G.
    clear - A G. simpl.
    induction entries as [|[name x] rest IHl]; simpl in *; [discriminate|].
    rewrite !in_app_iff.
    destruct (String.eqb_spec name c) as [-> | Hne].
    + injection A as ->. left. now right.
    + right. now apply IHl.
Qed.

(** X17.  A Swift file is a test file as soon as one of the directories
    above it, at any depth below the project root, is named Tests or
    JJYWaveTests: whatever the glob yields below such a directory is counted
    among the test files and not among the main files. *)
Theorem files_below_test_directories
        (fs : node) (project_root marker f : string)
        (n d : node) (p : list string) :
  resolve fs project_root = Some n ->
  walk n (p ++ [marker]) = Some d ->
  marker = "Tests" \/ marker = "JJYWaveTests" ->
  In f (glob_node (fold_left joinpath p project_root // marker) d) ->
  In f (test_swift (glob_swift fs project_root)) /\
  ~ In f (main_swift (glob_swift fs project_root)).
Proof.
  intros Hr Hw Hm Hf.
  set (dir := fold_left joinpath p project_root) in *.
  assert (G : In f (glob_swift fs project_root)).
  { unfold glob_swift. rewrite Hr.
    apply (glob_node_walk (p ++ [marker]) n project_root d f Hw).
    now rewrite fold_left_app. }
  assert (T : is_test_path f = true).
  { assert (B : exists a, dir // marker = a ++ "/" ++ marker).
    { unfold joinpath. destruct (ends_with "/" dir) eqn:D.
      - destruct (ends_with_slash dir D) as [d0 ->].
        exists d0. apply append_assoc.
      - now exists dir. }
    destruct B as [a B].
    assert (E : ends_with "/" (dir // marker) = false).
    { rewrite B, ends_with_slash_app by (simpl; discriminate).
      destruct Hm as [-> | ->]; reflexivity. }
    destruct (glob_node_below d _ _ E Hf) as [s ->].
    rewrite B, !append_assoc. unfold is_test_path.
    destruct Hm as [-> | ->].
    - change (a ++ "/" ++ "Tests" ++ "/" ++ s) with (a ++ "/Tests/" ++ s).
      rewrite (contains_app_r "/Tests/" a _ (contains_app_l "/Tests/" "/Tests/" s eq_refl)).
      reflexivity.
    - change (a ++ "/" ++ "JJYWaveTests" ++ "/" ++ s) with (a ++ "/JJYWaveTests/" ++ s).
      rewrite (contains_app_r "/JJYWaveTests/" a _
                 (contains_app_l "/JJYWaveTests/" "/JJYWaveTests/" s eq_refl)).
      apply orb_true_r. }
  unfold test_swift, main_swift. rewrite !filter_In. split; [now split|].
  intros [_ M]. unfold is_main_path, is_test_path in *.
  rewrite <- negb_orb, T in M. discriminate.
Qed.

Lemma files_below_test_directories_witness :
  In "/w/Modules/Audio/Tests/Deep/T.swift"
     (test_swift (glob_swift (Dir [("w", Example.nested_tests)]) "/w")).
Proof.
  apply (files_below_test_directories
           (Dir [("w", Example.nested_tests)]) "/w" "Tests"
           "/w/Modules/Audio/Tests/Deep/T.swift"
           Example.nested_tests
           (Dir [("Deep", Dir (Example.swift_named "T" 2))])
           ["Modules"; "Audio"]).
  - reflexivity.
  - reflexivity.
  - now left.
  - vm_compute. tauto.
Defined.
